(** * Task Management API: the CRUD contract over a shallow embedding

    The development follows the layering of the application:

    - [app/models/task.py]            the [TaskStatus] enumeration and the [Task] row;
    - [app/schemas/task.py]           the request and response schemas and their validation;
    - [app/services/task_service.py]  [TaskService], the five persistence operations;
    - [app/routers/tasks.py]          the five route handlers;
    - [app/main.py]                   the application: route table and dispatch.

    The relational store is a table of rows in insertion order together with
    the auto-increment counter of the primary key.  A session is threaded
    through the service as explicit state (the [db] monad below).  The service
    is also given at the level of attributes (module [attributes]), where a row
    object is a dictionary of untyped values; the typed service is shown to be
    that one on the attributes of its rows. *)

From Stdlib Require Import ZArith List Bool Ascii String Lia.
From stdpp Require Import base decidable option list gmap strings.

Open Scope Z_scope.
Open Scope string_scope.

(** ** JSON values, as [request.json()] hands them to validation.

    An object is a dictionary keyed by member name.  Numbers are kept as
    integers: every numeric value is treated alike by the three fields of the
    task schemas (none of them accepts a number). *)

#[warnings="-register-all"]
Inductive json : Type :=
  | JNull
  | JBool (b : bool)
  | JNum (n : Z)
  | JStr (s : string)
  | JArr (l : list json)
  | JObj (d : gmap string json).

(** ** app/models/task.py *)

Inductive TaskStatus : Type := PENDING | IN_PROGRESS | COMPLETED.

#[global] Instance TaskStatus_eq_dec : EqDecision TaskStatus.
Proof. solve_decision. Defined.

(** The [value] of an enumeration member: the literal used on the wire. *)
Definition TaskStatus_value (st : TaskStatus) : string :=
  match st with
  | PENDING => "PENDING"
  | IN_PROGRESS => "IN_PROGRESS"
  | COMPLETED => "COMPLETED"
  end.

(** [TaskStatus(v)]: lookup of a member by value; [None] stands for the
    [ValueError] of the enumeration. *)
Definition TaskStatus_of_value (v : string) : option TaskStatus :=
  if String.eqb v "PENDING" then Some PENDING
  else if String.eqb v "IN_PROGRESS" then Some IN_PROGRESS
  else if String.eqb v "COMPLETED" then Some COMPLETED
  else None.

Module Task.
(** One row of table [tasks].  Timestamps are points of an abstract clock. *)
Record t : Type := mk {
  id : Z;
  title : string;
  description : option string;
  status : TaskStatus;
  created_at : Z;
  updated_at : option Z
}.

#[global] Instance eq_dec : EqDecision t.
Proof. solve_decision. Defined.
End Task.

(** ** app/schemas/task.py

    [TaskBase] declares [title : str] (required), [description : Optional[str]
    = None] and [status : TaskStatus = TaskStatus.PENDING]; [TaskCreate] and
    [TaskUpdate] inherit it unchanged.  A validated model remembers which of
    its fields the input supplied ([fields_set]); that is what
    [dict(exclude_unset=True)] consults. *)

Module schemas.

Record TaskBase : Type := mk {
  title : string;
  description : option string;
  status : TaskStatus;
  fields_set : gset string
}.

Definition TaskCreate : Type := TaskBase.
Definition TaskUpdate : Type := TaskBase.

Definition model_fields : gset string :=
  {[ "title"; "description"; "status" ]}.

(** [title: str]: required, a JSON string (the empty string included:
    the field carries no length constraint). *)
Definition validate_title (d : gmap string json) : option string :=
  match d !! "title" with
  | Some (JStr s) => Some s
  | _ => None
  end.

(** [description: Optional[str] = None]: absent and [null] both give [None]. *)
Definition validate_description (d : gmap string json) : option (option string) :=
  match d !! "description" with
  | None => Some None
  | Some JNull => Some None
  | Some (JStr s) => Some (Some s)
  | Some _ => None
  end.

(** [status: TaskStatus = TaskStatus.PENDING]: absent gives the default,
    otherwise the value must be one of the three literals. *)
Definition validate_status (d : gmap string json) : option TaskStatus :=
  match d !! "status" with
  | None => Some PENDING
  | Some (JStr v) => TaskStatus_of_value v
  | Some _ => None
  end.

(** Validation of a request body against [TaskBase]; [None] is the
    validation error that the framework answers with 422.  Members that
    are not fields of the model are ignored. *)
Definition validate (body : option json) : option TaskBase :=
  match body with
  | Some (JObj d) =>
      t ← validate_title d;
      de ← validate_description d;
      st ← validate_status d;
      Some (mk t de st (dom d ∩ model_fields))
  | _ => None
  end.

(** One [(key, value)] item of [task.dict()]; the constructor is the key. *)
Inductive item : Type :=
  | Title (value : string)
  | Description (value : option string)
  | Status (value : TaskStatus).

Definition key (i : item) : string :=
  match i with
  | Title _ => "title"
  | Description _ => "description"
  | Status _ => "status"
  end.

(** [task.dict(exclude_unset=...)]: the fields in declaration order,
    restricted to the supplied ones when [exclude_unset] is set. *)
Definition dict (exclude_unset : bool) (task : TaskBase) : list item :=
  List.filter
    (fun i => implb exclude_unset (bool_decide (key i ∈ fields_set task)))
    [Title (title task); Description (description task); Status (status task)].

(** [TaskResponse(TaskBase)] adds [id], [created_at], [updated_at]. *)
Record TaskResponse : Type := mkResponse {
  r_title : string;
  r_description : option string;
  r_status : TaskStatus;
  r_id : Z;
  r_created_at : Z;
  r_updated_at : option Z
}.

(** [from_attributes = True]: the view is read off the row's attributes. *)
Definition from_attributes (row : Task.t) : TaskResponse :=
  mkResponse (Task.title row) (Task.description row) (Task.status row)
             (Task.id row) (Task.created_at row) (Task.updated_at row).

End schemas.

(** ** The store behind a session

    Table [tasks] in insertion order and the auto-increment counter of its
    primary key.  Service code runs in the state monad [db]. *)

Record database : Type := mkdb {
  rows : list Task.t;
  next_id : Z
}.

Definition empty_db : database := mkdb [] 1.

Definition db (A : Type) : Type := database -> A * database.

Definition ret {A} (a : A) : db A := fun s => (a, s).

Definition bind {A B} (m : db A) (k : A -> db B) : db B :=
  fun s => let (a, s') := m s in k a s'.

Declare Scope db_scope.
Delimit Scope db_scope with db.
Notation "x <~ m ; k" := (bind m (fun x => k))
  (at level 20, m at level 100, k at level 200, only parsing) : db_scope.

(** [db.query(Task).all()] *)
Definition query_all : db (list Task.t) := fun s => (rows s, s).

(** The first row of a table whose primary key is [task_id]. *)
Definition lookup_row (task_id : Z) (table : list Task.t) : option Task.t :=
  List.find (fun r => (Task.id r =? task_id)%Z) table.

(** [db.query(Task).filter(Task.id == task_id).first()] *)
Definition query_first (task_id : Z) : db (option Task.t) :=
  fun s => (lookup_row task_id (rows s), s).

(** [db.add(db_task); db.commit(); db.refresh(db_task)]: the INSERT assigns the
    primary key from the counter and [created_at] from the server clock
    ([server_default=func.now()]); [updated_at] has no insert default. *)
Definition add_commit_refresh (now : Z) (title : string)
    (description : option string) (status : TaskStatus) : db Task.t :=
  fun s =>
    let db_task := Task.mk (next_id s) title description status now None in
    (db_task, mkdb (rows s ++ [db_task]) (next_id s + 1)).

(** [db.commit(); db.refresh(db_task)] after attribute assignment: an UPDATE
    of the row with the object's primary key is emitted when an attribute
    differs from the loaded row, and stamps [updated_at]
    ([onupdate=func.now()]). *)
Definition commit_refresh (now : Z) (loaded db_task : Task.t) : db Task.t :=
  fun s =>
    if decide (loaded = db_task) then (db_task, s)
    else
      let stored :=
        Task.mk (Task.id db_task) (Task.title db_task) (Task.description db_task)
                (Task.status db_task) (Task.created_at db_task) (Some now) in
      (stored,
       mkdb (map (fun r => if (Task.id r =? Task.id loaded)%Z then stored else r) (rows s))
            (next_id s)).

(** [db.delete(db_task); db.commit()]: DELETE of the row with that primary key. *)
Definition delete_commit (db_task : Task.t) : db unit :=
  fun s =>
    (tt, mkdb (List.filter (fun r => negb (Task.id r =? Task.id db_task)%Z) (rows s))
              (next_id s)).

(** [setattr(db_task, key, value)] *)
Definition setattr (db_task : Task.t) (i : schemas.item) : Task.t :=
  match i with
  | schemas.Title v =>
      Task.mk (Task.id db_task) v (Task.description db_task) (Task.status db_task)
              (Task.created_at db_task) (Task.updated_at db_task)
  | schemas.Description v =>
      Task.mk (Task.id db_task) (Task.title db_task) v (Task.status db_task)
              (Task.created_at db_task) (Task.updated_at db_task)
  | schemas.Status v =>
      Task.mk (Task.id db_task) (Task.title db_task) (Task.description db_task) v
              (Task.created_at db_task) (Task.updated_at db_task)
  end.

(** ** app/services/task_service.py *)

Module TaskService.
Local Open Scope db_scope.

Definition get_all_tasks : db (list Task.t) :=
  query_all.

Definition get_task (task_id : Z) : db (option Task.t) :=
  query_first task_id.

(** The row object takes [task.dict()] as keyword arguments: the dictionary
    carries the three schema fields, defaults included, so the row is built
    from exactly those. *)
Definition create_task (now : Z) (task : schemas.TaskCreate) : db Task.t :=
  db_task <~ add_commit_refresh now (schemas.title task)
               (schemas.description task) (schemas.status task) ;
  ret db_task.

Definition update_task (now : Z) (task_id : Z) (task : schemas.TaskUpdate)
    : db (option Task.t) :=
  found <~ query_first task_id ;
  match found with
  | Some db_task =>
      stored <~ commit_refresh now db_task
                  (fold_left setattr (schemas.dict true task) db_task) ;
      ret (Some stored)
  | None => ret None
  end.

Definition delete_task (task_id : Z) : db bool :=
  found <~ query_first task_id ;
  match found with
  | Some db_task =>
      _ <~ delete_commit db_task ;
      ret true
  | None => ret false
  end.

End TaskService.

(** ** app/routers/tasks.py

    A handler either returns a value or raises [HTTPException]. *)

Inductive outcome (A : Type) : Type :=
  | Return (a : A)
  | HTTPException (status_code : Z) (detail : string).
Arguments Return {A} a.
Arguments HTTPException {A} status_code detail.

Inductive Method : Type := GET | POST | PUT | DELETE | PATCH | HEAD | OPTIONS.

#[global] Instance Method_eq_dec : EqDecision Method.
Proof. solve_decision. Defined.

(** The path operation functions of the application, by name. *)
Module Endpoint.
Inductive t : Type :=
  | get_tasks | create_task | get_task | update_task | delete_task
  | health_check | root.
End Endpoint.

Record Route : Type := mkRoute {
  route_path : string;
  route_method : Method;
  route_endpoint : Endpoint.t
}.

Module routers.
Local Open Scope db_scope.

Definition prefix : string := "/tasks".

(** The decorators of the module, in order; the router prepends its
    prefix to each path as the route is declared. *)
Definition routes : list Route :=
  [ mkRoute (prefix ++ "/") GET Endpoint.get_tasks;
    mkRoute (prefix ++ "/") POST Endpoint.create_task;
    mkRoute (prefix ++ "/{task_id}") GET Endpoint.get_task;
    mkRoute (prefix ++ "/{task_id}") PUT Endpoint.update_task;
    mkRoute (prefix ++ "/{task_id}") DELETE Endpoint.delete_task ].

Definition get_tasks : db (outcome (list Task.t)) :=
  tasks <~ TaskService.get_all_tasks ;
  ret (Return tasks).

Definition create_task (now : Z) (task : schemas.TaskCreate) : db (outcome Task.t) :=
  db_task <~ TaskService.create_task now task ;
  ret (Return db_task).

Definition get_task (task_id : Z) : db (outcome Task.t) :=
  task <~ TaskService.get_task task_id ;
  match task with
  | None => ret (HTTPException 404 "Task not found")
  | Some task => ret (Return task)
  end.

Definition update_task (now : Z) (task_id : Z) (task : schemas.TaskUpdate)
    : db (outcome Task.t) :=
  updated_task <~ TaskService.update_task now task_id task ;
  match updated_task with
  | None => ret (HTTPException 404 "Task not found")
  | Some updated_task => ret (Return updated_task)
  end.

Definition delete_task (task_id : Z) : db (outcome (list (string * string))) :=
  deleted <~ TaskService.delete_task task_id ;
  if negb deleted
  then ret (HTTPException 404 "Task not found")
  else ret (Return [("message", "Task deleted successfully")]).

End routers.

(** ** Path matching and parameter conversion, as the framework does them *)

Fixpoint split_slash (s : string) : list string :=
  match s with
  | EmptyString => [EmptyString]
  | String c rest =>
      if Ascii.eqb c "/" then EmptyString :: split_slash rest
      else match split_slash rest with
           | seg :: segs => String c seg :: segs
           | [] => [String c EmptyString]
           end
  end.

(** A template segment of the form [{name}] is a path parameter. *)
Definition param_name (seg : string) : option string :=
  match seg with
  | String "{" rest =>
      let n := (String.length rest - 1)%nat in
      if String.eqb (substring n 1 rest) "}" then Some (substring 0 n rest) else None
  | _ => None
  end.

(** A parameter matches one non-empty segment, a literal matches itself. *)
Fixpoint match_segments (tmpl path : list string) : option (list (string * string)) :=
  match tmpl, path with
  | [], [] => Some []
  | t :: tmpl', p :: path' =>
      match param_name t with
      | Some name =>
          if String.eqb p "" then None
          else ps ← match_segments tmpl' path'; Some ((name, p) :: ps)
      | None =>
          if String.eqb t p then match_segments tmpl' path' else None
      end
  | _, _ => None
  end.

Definition match_path (tmpl path : string) : option (list (string * string)) :=
  match_segments (split_slash tmpl) (split_slash path).

Definition digit (c : ascii) : option Z :=
  let n := Z.of_N (N_of_ascii c) in
  if (48 <=? n)%Z && (n <=? 57)%Z then Some (n - 48) else None.

Fixpoint digits (acc : Z) (s : string) : option Z :=
  match s with
  | EmptyString => Some acc
  | String c rest => d ← digit c; digits (10 * acc + d) rest
  end.

(** [task_id: int] read from a path segment: a decimal literal with an
    optional minus sign.  The conversion of the framework also admits other
    spellings of an integer (a plus sign, a fraction of zeros, underscores
    between digits); those are not covered here and count as invalid. *)
Definition int_validator (s : string) : option Z :=
  match s with
  | EmptyString => None
  | String c rest =>
      if Ascii.eqb c "-"
      then match rest with
           | EmptyString => None
           | _ => Z.opp <$> digits 0 rest
           end
      else digits 0 s
  end.

(** ** Requests and responses *)

Record Request : Type := mkRequest {
  method : Method;
  path : string;
  body : option json
}.

Inductive content : Type :=
  | Model (view : schemas.TaskResponse)
  | ModelList (views : list schemas.TaskResponse)
  | Object (members : list (string * string))
  | ValidationErrors
  | Redirect (location : string).

Record Response : Type := mkResponse {
  status_code : Z;
  body_of : content
}.

(** A returned value is serialized with status 200; [HTTPException] becomes
    its status code with a [detail] member. *)
Definition respond {A} (render : A -> content) (o : outcome A) : Response :=
  match o with
  | Return a => mkResponse 200 (render a)
  | HTTPException code detail => mkResponse code (Object [("detail", detail)])
  end.

(** The answer to a request whose parameters or body fail validation. *)
Definition unprocessable : Response := mkResponse 422 ValidationErrors.

(** ** app/main.py *)

Module main.
Local Open Scope db_scope.

(** [app.include_router(tasks.router, prefix="/api")]: every route of the
    router is added under the given prefix. *)
Definition include_router (router : list Route) (prefix : string) : list Route :=
  map (fun r => mkRoute (prefix ++ route_path r) (route_method r) (route_endpoint r))
      router.

(** The route table in registration order: the included router, then the
    two path operations declared on the application itself. *)
Definition routes : list Route :=
  include_router routers.routes "/api"
  ++ [ mkRoute "/health" GET Endpoint.health_check;
       mkRoute "/" GET Endpoint.root ].

Definition health_check : outcome (list (string * string)) :=
  Return [("status", "UP")].

Definition root : outcome (list (string * string)) :=
  Return [("message", "Task Management API"); ("docs", "/docs")].

(** The [task_id] path parameter, converted to [int]. *)
Definition path_task_id (params : list (string * string)) : option Z :=
  match params with
  | [(_, v)] => int_validator v
  | _ => None
  end.

Definition view (row : Task.t) : content :=
  Model (schemas.from_attributes row).

Definition views (tasks : list Task.t) : content :=
  ModelList (map schemas.from_attributes tasks).

(** Calling a path operation: parameters and body are validated first, and
    the function runs only when all of them are valid. *)
Definition call (now : Z) (e : Endpoint.t) (params : list (string * string))
    (body : option json) : db Response :=
  match e with
  | Endpoint.get_tasks =>
      o <~ routers.get_tasks ; ret (respond views o)
  | Endpoint.create_task =>
      match schemas.validate body with
      | Some task => o <~ routers.create_task now task ; ret (respond view o)
      | None => ret unprocessable
      end
  | Endpoint.get_task =>
      match path_task_id params with
      | Some task_id => o <~ routers.get_task task_id ; ret (respond view o)
      | None => ret unprocessable
      end
  | Endpoint.update_task =>
      match path_task_id params, schemas.validate body with
      | Some task_id, Some task =>
          o <~ routers.update_task now task_id task ; ret (respond view o)
      | _, _ => ret unprocessable
      end
  | Endpoint.delete_task =>
      match path_task_id params with
      | Some task_id => o <~ routers.delete_task task_id ; ret (respond Object o)
      | None => ret unprocessable
      end
  | Endpoint.health_check => ret (respond Object health_check)
  | Endpoint.root => ret (respond Object root)
  end.

(** The first route whose path and method both match. *)
Fixpoint full_match (rs : list Route) (m : Method) (p : string)
    : option (Endpoint.t * list (string * string)) :=
  match rs with
  | [] => None
  | r :: rs' =>
      match match_path (route_path r) p with
      | Some params =>
          if decide (route_method r = m) then Some (route_endpoint r, params)
          else full_match rs' m p
      | None => full_match rs' m p
      end
  end.

(** Some route matches the path, whatever its method. *)
Definition path_known (rs : list Route) (p : string) : bool :=
  existsb (fun r => bool_decide (is_Some (match_path (route_path r) p))) rs.

(** [p.rstrip("/")]: the path without its trailing slashes. *)
Fixpoint rstrip_slash (p : string) : string :=
  match p with
  | EmptyString => EmptyString
  | String c rest =>
      match rstrip_slash rest with
      | EmptyString => if Ascii.eqb c "/" then EmptyString else String c EmptyString
      | rest' => String c rest'
      end
  end.

(** The path with its trailing slashes stripped when it ends in one, or with
    a slash added when it does not. *)
Definition toggle_slash (p : string) : string :=
  let n := String.length p in
  if String.eqb (substring (n - 1) 1 p) "/" then rstrip_slash p
  else p ++ "/".

(** The application: a full match runs the path operation; a path served
    under other methods only is answered 405; a path that matches once its
    trailing slash is toggled is redirected; anything else is 404. *)
Definition app (now : Z) (req : Request) : db Response :=
  match full_match routes (method req) (path req) with
  | Some (e, params) => call now e params (body req)
  | None =>
      if path_known routes (path req)
      then ret (mkResponse 405 (Object [("detail", "Method Not Allowed")]))
      else if negb (String.eqb (path req) "/")
              && path_known routes (toggle_slash (path req))
      then ret (mkResponse 307 (Redirect (toggle_slash (path req))))
      else ret (mkResponse 404 (Object [("detail", "Not Found")]))
  end.

End main.

(** ** Runs of the application *)

(** The states the store goes through when requests are served one after
    another, starting from the empty table. *)
Inductive reachable : database -> Prop :=
  | reachable_empty : reachable empty_db
  | reachable_step now req s :
      reachable s -> reachable (snd (main.app now req s)).

(** Primary keys are unique and lie below the auto-increment counter. *)
Definition db_wf (s : database) : Prop :=
  NoDup (map Task.id (rows s)) /\ Forall (fun r => (Task.id r < next_id s)%Z) (rows s).

Definition json_obj (members : list (string * json)) : json :=
  JObj (list_to_map members).

(** Serving a sequence of requests, each at its own time, one after another
    on the same store; the responses come back in order. *)
Fixpoint serve (reqs : list (Z * Request)) : db (list Response) :=
  match reqs with
  | [] => ret []
  | (now, req) :: reqs' =>
      fun s =>
        let (resp, s1) := main.app now req s in
        let (resps, s2) := serve reqs' s1 in
        (resp :: resps, s2)
  end.

(** A create request for a given body, and a list of them. *)
Definition post (req_body : option json) : Request :=
  mkRequest POST "/api/tasks/" req_body.


(** The path of the item route for a given last segment. *)
Definition item_path (seg : string) : string := "/api/tasks/" ++ seg.

Fixpoint no_slash (s : string) : bool :=
  match s with
  | EmptyString => true
  | String c rest => negb (Ascii.eqb c "/") && no_slash rest
  end.

(** The task views carried by a response body. *)
Definition views_of (c : content) : list schemas.TaskResponse :=
  match c with
  | Model v => [v]
  | ModelList vs => vs
  | _ => []
  end.

Definition status_literals : list string := ["PENDING"; "IN_PROGRESS"; "COMPLETED"].

Definition json_of_description (de : option string) : json :=
  match de with
  | Some x => JStr x
  | None => JNull
  end.

Definition not_found : Response :=
  mkResponse 404 (Object [("detail", "Task not found")]).

(** ** The service at the level of attributes

    The same service functions, with a row object taken as Python has it: a
    dictionary of attributes whose values are not constrained by any type.
    Here a [status] attribute can a priori be missing, null or any value; what
    the service does decides what it holds. *)

Inductive pyvalue : Type :=
  | PyNone
  | PyInt (n : Z)
  | PyStr (s : string)
  | PyStatus (member : TaskStatus).

#[global] Instance pyvalue_eq_dec : EqDecision pyvalue.
Proof. solve_decision. Defined.

Module attributes.

Record table : Type := mk {
  objects : list (gmap string pyvalue);
  counter : Z
}.

Definition empty : table := mk [] 1.

(** The value of one item of [task.dict()]. *)
Definition value (i : schemas.item) : pyvalue :=
  match i with
  | schemas.Title v => PyStr v
  | schemas.Description (Some v) => PyStr v
  | schemas.Description None => PyNone
  | schemas.Status member => PyStatus member
  end.

(** [task.dict(exclude_unset=...).items()] *)
Definition items (exclude_unset : bool) (task : schemas.TaskBase)
    : list (string * pyvalue) :=
  map (fun i => (schemas.key i, value i)) (schemas.dict exclude_unset task).

(** [setattr(db_task, key, value)] *)
Definition setattr (db_task : gmap string pyvalue) (kv : string * pyvalue)
    : gmap string pyvalue :=
  <[fst kv := snd kv]> db_task.

Definition has_id (task_id : Z) (obj : gmap string pyvalue) : bool :=
  bool_decide (obj !! "id" = Some (PyInt task_id)).

(** [db.query(Task).filter(Task.id == task_id).first()] *)
Definition first (task_id : Z) (t : table) : option (gmap string pyvalue) :=
  List.find (has_id task_id) (objects t).

Definition get_all_tasks (t : table) : list (gmap string pyvalue) * table :=
  (objects t, t).

Definition get_task (task_id : Z) (t : table)
    : option (gmap string pyvalue) * table :=
  (first task_id t, t).

(** The object is built from the keyword arguments [task.dict()]; the INSERT
    and the refresh add [id], [created_at] and a null [updated_at]. *)
Definition create_task (now : Z) (task : schemas.TaskCreate) (t : table)
    : gmap string pyvalue * table :=
  let db_task := fold_left setattr (items false task) ∅ in
  let stored :=
    <["id" := PyInt (counter t)]>
      (<["created_at" := PyInt now]> (<["updated_at" := PyNone]> db_task)) in
  (stored, mk (objects t ++ [stored]) (counter t + 1)).

Definition update_task (now : Z) (task_id : Z) (task : schemas.TaskUpdate)
    (t : table) : option (gmap string pyvalue) * table :=
  match first task_id t with
  | Some db_task =>
      let assigned := fold_left setattr (items true task) db_task in
      if decide (db_task = assigned) then (Some assigned, t)
      else
        let stored := <["updated_at" := PyInt now]> assigned in
        (Some stored,
         mk (map (fun o => if has_id task_id o then stored else o) (objects t))
            (counter t))
  | None => (None, t)
  end.

Definition delete_task (task_id : Z) (t : table) : bool * table :=
  match first task_id t with
  | Some db_task =>
      (true, mk (List.filter (fun o => negb (has_id task_id o)) (objects t))
                (counter t))
  | None => (false, t)
  end.

(** The [status] a client reads in the view of an object: the value of the
    member held by the attribute, a string that names a member, or no view at
    all when the attribute holds anything else. *)
Definition returned_status (obj : gmap string pyvalue) : option string :=
  match obj !! "status" with
  | Some (PyStatus member) => Some (TaskStatus_value member)
  | Some (PyStr v) => TaskStatus_value <$> TaskStatus_of_value v
  | _ => None
  end.

(** An object whose [status] attribute holds one of the three members, read
    by a client as that member's literal. *)
Definition enumerated (obj : gmap string pyvalue) : Prop :=
  exists member,
    In member [PENDING; IN_PROGRESS; COMPLETED] /\
    obj !! "status" = Some (PyStatus member) /\
    returned_status obj = Some (TaskStatus_value member) /\
    In (TaskStatus_value member) status_literals.

(** The tables reached from the empty one by create, update and delete
    operations; their inputs are validated models. *)
Inductive reachable : table -> Prop :=
  | reachable_empty : reachable empty
  | reachable_create now task t :
      reachable t -> reachable (snd (create_task now task t))
  | reachable_update now task_id task t :
      reachable t -> reachable (snd (update_task now task_id task t))
  | reachable_delete task_id t :
      reachable t -> reachable (snd (delete_task task_id t)).

(** The attributes of a row of the typed table. *)
Definition of_row (r : Task.t) : gmap string pyvalue :=
  <["id" := PyInt (Task.id r)]>
    (<["created_at" := PyInt (Task.created_at r)]>
       (<["updated_at" := from_option PyInt PyNone (Task.updated_at r)]>
          (<["status" := PyStatus (Task.status r)]>
             (<["description" := from_option PyStr PyNone (Task.description r)]>
                (<["title" := PyStr (Task.title r)]> ∅))))).

Definition of_db (s : database) : table :=
  mk (map of_row (rows s)) (next_id s).

End attributes.

(** A table with one completed task, as left by one create request. *)
Definition sample_task : Task.t :=
  Task.mk 1 "Test Task" (Some "Test Description") COMPLETED 100 None.

Definition sample_db : database := mkdb [sample_task] 2.

(** A table with two tasks. *)
Definition second_task : Task.t :=
  Task.mk 2 "Second Task" None PENDING 150 None.

Definition two_task_db : database := mkdb [sample_task; second_task] 3.

(** * Properties *)

(** ** The table: lookups after each kind of write *)

Section table.
Implicit Types (rs : list Task.t) (r t : Task.t) (k i : Z).

Lemma lookup_row_Some k rs r :
  lookup_row k rs = Some r -> In r rs /\ Task.id r = k.
Proof.
  unfold lookup_row. intros H. apply List.find_some in H as [Hin Heq].
  split; [assumption | lia].
Qed.

Lemma lookup_row_None k rs :
  lookup_row k rs = None <-> (forall r, In r rs -> Task.id r <> k).
Proof.
  unfold lookup_row. split.
  - intros H r Hin. pose proof (List.find_none _ _ H r Hin) as Hr.
    simpl in Hr. lia.
  - induction rs as [|a rs IH]; intros H; simpl; [reflexivity|].
    destruct (Z.eqb_spec (Task.id a) k) as [E|E].
    + exfalso. apply (H a); [now left | exact E].
    + apply IH. intros r Hin. apply H. now right.
Qed.

Lemma lookup_row_app k rs t :
  lookup_row k (rs ++ [t])%list =
    match lookup_row k rs with
    | Some r => Some r
    | None => if (Task.id t =? k)%Z then Some t else None
    end.
Proof.
  unfold lookup_row. induction rs as [|a rs IH]; simpl.
  - reflexivity.
  - destruct (Task.id a =? k)%Z; [reflexivity | exact IH].
Qed.

Lemma lookup_row_write k i rs t :
  Task.id t = i ->
  lookup_row k (map (fun r => if (Task.id r =? i)%Z then t else r) rs) =
    if (k =? i)%Z
    then match lookup_row i rs with Some _ => Some t | None => None end
    else lookup_row k rs.
Proof.
  intros Ht. unfold lookup_row. induction rs as [|a rs IH]; simpl.
  - now destruct (k =? i)%Z.
  - destruct (Z.eqb_spec (Task.id a) i) as [Ea|Ea]; simpl.
    + rewrite Ht. destruct (Z.eqb_spec k i) as [Ek|Ek].
      * subst k. now rewrite Z.eqb_refl.
      * destruct (Z.eqb_spec i k) as [E|E]; [congruence|].
        destruct (Z.eqb_spec (Task.id a) k) as [E'|E']; [congruence|].
        rewrite IH. destruct (Z.eqb_spec k i); [contradiction | reflexivity].
    + destruct (Z.eqb_spec (Task.id a) k) as [E'|E'].
      * destruct (Z.eqb_spec k i) as [Ek|Ek]; [congruence | reflexivity].
      * exact IH.
Qed.

Lemma lookup_row_delete k i rs :
  lookup_row k (List.filter (fun r => negb (Task.id r =? i)%Z) rs) =
    if (k =? i)%Z then None else lookup_row k rs.
Proof.
  unfold lookup_row. induction rs as [|a rs IH]; simpl.
  - now destruct (k =? i)%Z.
  - destruct (Z.eqb_spec (Task.id a) i) as [Ea|Ea]; simpl.
    + rewrite IH. destruct (Z.eqb_spec k i) as [Ek|Ek]; [reflexivity|].
      destruct (Z.eqb_spec (Task.id a) k); [congruence | reflexivity].
    + destruct (Z.eqb_spec (Task.id a) k) as [E'|E'].
      * destruct (Z.eqb_spec k i); [congruence | reflexivity].
      * exact IH.
Qed.

(** With unique keys, deleting by key removes one row and keeps the rest
    in place. *)
Lemma delete_unique i rs t :
  NoDup (map Task.id rs) -> lookup_row i rs = Some t ->
  exists l1 l2 : list Task.t, rs = (l1 ++ t :: l2)%list /\
    List.filter (fun r => negb (Task.id r =? i)%Z) rs = (l1 ++ l2)%list.
Proof.
  unfold lookup_row. induction rs as [|a rs IH]; simpl; intros Hnd Hf.
  - discriminate.
  - inversion Hnd as [|x xs Hnotin Hnd']; subst.
    rewrite list_elem_of_In in Hnotin.
    destruct (Z.eqb_spec (Task.id a) i) as [Ea|Ea]; simpl.
    + injection Hf as <-. exists [], rs. split; [reflexivity|]. simpl.
      clear IH Hnd Hnd'. induction rs as [|b rs IH]; simpl; [reflexivity|].
      destruct (Z.eqb_spec (Task.id b) i) as [Eb|Eb]; simpl.
      * exfalso. apply Hnotin. simpl. left. congruence.
      * f_equal. apply IH. intros Hin. apply Hnotin. simpl. now right.
    + destruct (IH Hnd' Hf) as (l1 & l2 & -> & Hfl).
      exists (a :: l1), l2. split; [reflexivity|]. simpl. now rewrite Hfl.
Qed.

End table.

(** ** The service operations *)

Section service.
Implicit Types (s : database) (t : Task.t) (u : schemas.TaskBase).

(** What the assignment loop of [update_task] leaves in the row object. *)
Lemma setattr_loop t u :
  let t' := fold_left setattr (schemas.dict true u) t in
  Task.id t' = Task.id t /\
  Task.created_at t' = Task.created_at t /\
  Task.updated_at t' = Task.updated_at t /\
  Task.title t' =
    (if bool_decide ("title" ∈ schemas.fields_set u)
     then schemas.title u else Task.title t) /\
  Task.description t' =
    (if bool_decide ("description" ∈ schemas.fields_set u)
     then schemas.description u else Task.description t) /\
  Task.status t' =
    (if bool_decide ("status" ∈ schemas.fields_set u)
     then schemas.status u else Task.status t).
Proof.
  unfold schemas.dict. simpl.
  destruct (bool_decide ("title" ∈ schemas.fields_set u));
    destruct (bool_decide ("description" ∈ schemas.fields_set u));
    destruct (bool_decide ("status" ∈ schemas.fields_set u));
    simpl; repeat split; reflexivity.
Qed.

Lemma map_id_write (rs : list Task.t) (i : Z) (t : Task.t) :
  Task.id t = i ->
  map Task.id (map (fun r => if (Task.id r =? i)%Z then t else r) rs)
  = map Task.id rs.
Proof.
  intros Ht. induction rs as [|a rs IH]; simpl; [reflexivity|].
  rewrite IH. destruct (Z.eqb_spec (Task.id a) i) as [E|E];
    [now rewrite E, Ht | reflexivity].
Qed.

Lemma get_task_spec task_id s :
  TaskService.get_task task_id s = (lookup_row task_id (rows s), s).
Proof. reflexivity. Qed.

Lemma get_all_tasks_spec s :
  TaskService.get_all_tasks s = (rows s, s).
Proof. reflexivity. Qed.

Lemma create_task_spec now u s :
  TaskService.create_task now u s =
    (let row := Task.mk (next_id s) (schemas.title u) (schemas.description u)
                        (schemas.status u) now None in
     (row, mkdb (rows s ++ [row]) (next_id s + 1))).
Proof. reflexivity. Qed.

Lemma update_task_absent now task_id u s :
  lookup_row task_id (rows s) = None ->
  TaskService.update_task now task_id u s = (None, s).
Proof.
  intros H. unfold TaskService.update_task, bind, query_first. now rewrite H.
Qed.

Lemma update_task_found now task_id u s t :
  lookup_row task_id (rows s) = Some t ->
  exists t' s',
    TaskService.update_task now task_id u s = (Some t', s') /\
    next_id s' = next_id s /\
    map Task.id (rows s') = map Task.id (rows s) /\
    (forall k, lookup_row k (rows s') =
               if (k =? task_id)%Z then Some t' else lookup_row k (rows s)) /\
    Task.id t' = task_id /\
    Task.created_at t' = Task.created_at t /\
    Task.title t' =
      (if bool_decide ("title" ∈ schemas.fields_set u)
       then schemas.title u else Task.title t) /\
    Task.description t' =
      (if bool_decide ("description" ∈ schemas.fields_set u)
       then schemas.description u else Task.description t) /\
    Task.status t' =
      (if bool_decide ("status" ∈ schemas.fields_set u)
       then schemas.status u else Task.status t).
Proof.
  intros H. destruct (lookup_row_Some _ _ _ H) as [_ Hid].
  destruct (setattr_loop t u) as (Li & Lc & Lu & Lt & Ld & Ls).
  unfold TaskService.update_task, bind, query_first. rewrite H.
  unfold commit_refresh, ret.
  destruct (decide (t = fold_left setattr (schemas.dict true u) t)) as [E|E].
  - eexists _, s. split; [reflexivity|]. repeat split; try assumption.
    + intros k. destruct (Z.eqb_spec k task_id) as [->|]; [|reflexivity].
      rewrite H. f_equal. exact E.
    + congruence.
  - eexists _, _. split; [reflexivity|]. simpl. repeat split; try assumption.
    + apply map_id_write. exact Li.
    + intros k. rewrite (lookup_row_write k (Task.id t)); [|exact Li].
      rewrite Hid, H. reflexivity.
    + congruence.
Qed.

Lemma update_task_others now task_id u s r :
  In r (rows s) -> Task.id r <> task_id ->
  In r (rows (snd (TaskService.update_task now task_id u s))).
Proof.
  intros Hin Hne. unfold TaskService.update_task, bind, query_first.
  destruct (lookup_row task_id (rows s)) as [t|] eqn:H; [|exact Hin].
  destruct (lookup_row_Some _ _ _ H) as [_ Hid].
  unfold commit_refresh, ret.
  destruct (decide (t = fold_left setattr (schemas.dict true u) t)); [exact Hin|].
  simpl. apply in_map_iff. exists r. split; [|exact Hin].
  rewrite Hid. destruct (Z.eqb_spec (Task.id r) task_id); [contradiction|reflexivity].
Qed.

Lemma delete_task_absent task_id s :
  lookup_row task_id (rows s) = None ->
  TaskService.delete_task task_id s = (false, s).
Proof.
  intros H. unfold TaskService.delete_task, bind, query_first. now rewrite H.
Qed.

Lemma delete_task_found task_id s t :
  lookup_row task_id (rows s) = Some t ->
  TaskService.delete_task task_id s =
    (true, mkdb (List.filter (fun r => negb (Task.id r =? task_id)%Z) (rows s))
                (next_id s)).
Proof.
  intros H. destruct (lookup_row_Some _ _ _ H) as [_ Hid].
  unfold TaskService.delete_task, bind, query_first. rewrite H.
  unfold delete_commit, ret. now rewrite Hid.
Qed.

End service.

(** ** Routing *)

Section routing.

Lemma digits_no_slash acc s n : digits acc s = Some n -> no_slash s = true.
Proof.
  revert acc. induction s as [|c s IH]; intros acc H; simpl in *; [reflexivity|].
  destruct (digit c) as [d|] eqn:Hd; simpl in H; [|discriminate].
  destruct (Ascii.eqb_spec c "/") as [->|_]; [discriminate Hd|].
  simpl. exact (IH _ H).
Qed.

Lemma int_validator_segment seg n :
  int_validator seg = Some n -> no_slash seg = true /\ seg <> "".
Proof.
  destruct seg as [|c rest]; simpl; [discriminate|]. intros H.
  split; [|discriminate].
  destruct (Ascii.eqb_spec c "-") as [->|_].
  - simpl. destruct rest as [|c' rest']; [discriminate|].
    destruct (digits 0 (String c' rest')) as [m|] eqn:Hm; [|discriminate].
    exact (digits_no_slash _ _ _ Hm).
  - exact (digits_no_slash 0 (String c rest) n H).
Qed.

Lemma split_slash_segment seg : no_slash seg = true -> split_slash seg = [seg].
Proof.
  induction seg as [|c seg IH]; simpl; intros H; [reflexivity|].
  apply andb_prop in H as [Hc Hs]. apply negb_true_iff in Hc.
  rewrite Hc, (IH Hs). reflexivity.
Qed.

Lemma split_slash_item seg :
  no_slash seg = true -> split_slash (item_path seg) = [""; "api"; "tasks"; seg].
Proof.
  intros H. unfold item_path. simpl.
  change ("" +:+ seg) with seg. rewrite (split_slash_segment seg H).
  reflexivity.
Qed.

Lemma match_item seg :
  no_slash seg = true -> seg <> "" ->
  match_path "/api/tasks/{task_id}" (item_path seg) = Some [("task_id", seg)].
Proof.
  intros H Hne. unfold match_path. rewrite (split_slash_item seg H).
  destruct seg; [contradiction|]. reflexivity.
Qed.

Lemma match_collection_item seg :
  no_slash seg = true -> seg <> "" ->
  match_path "/api/tasks/" (item_path seg) = None.
Proof.
  intros H Hne. unfold match_path. rewrite (split_slash_item seg H).
  destruct seg; [contradiction|]. reflexivity.
Qed.

Lemma routes_table :
  main.routes =
    [ mkRoute "/api/tasks/" GET Endpoint.get_tasks;
      mkRoute "/api/tasks/" POST Endpoint.create_task;
      mkRoute "/api/tasks/{task_id}" GET Endpoint.get_task;
      mkRoute "/api/tasks/{task_id}" PUT Endpoint.update_task;
      mkRoute "/api/tasks/{task_id}" DELETE Endpoint.delete_task;
      mkRoute "/health" GET Endpoint.health_check;
      mkRoute "/" GET Endpoint.root ].
Proof. reflexivity. Qed.

Lemma app_item_route now m e seg n req_body s :
  int_validator seg = Some n ->
  (m, e) ∈ [(GET, Endpoint.get_task); (PUT, Endpoint.update_task);
            (DELETE, Endpoint.delete_task)] ->
  main.app now (mkRequest m (item_path seg) req_body) s =
    main.call now e [("task_id", seg)] req_body s.
Proof.
  intros Hseg Hm. apply int_validator_segment in Hseg as [Hs Hne].
  unfold main.app. rewrite routes_table.
  cbn [main.full_match method path body route_path route_method
       route_endpoint].
  rewrite (match_collection_item seg Hs Hne), (match_item seg Hs Hne).
  rewrite !elem_of_cons in Hm.
  destruct Hm as [E|[E|[E|E]]]; [| | |by apply elem_of_nil in E];
    injection E as -> ->; reflexivity.
Qed.

End routing.

(** ** Unique keys below the counter, in every reachable state *)

Section wellformed.

Lemma ids_filter (p : Task.t -> bool) (rs : list Task.t) (x : Z) :
  x ∈ map Task.id (List.filter p rs) -> x ∈ map Task.id rs.
Proof.
  rewrite !list_elem_of_In, !in_map_iff.
  intros (r & Hr & Hin). apply filter_In in Hin as [Hin _]. eauto.
Qed.

Lemma NoDup_ids_filter (p : Task.t -> bool) (rs : list Task.t) :
  NoDup (map Task.id rs) -> NoDup (map Task.id (List.filter p rs)).
Proof.
  induction rs as [|a rs IH]; simpl; intros H; [constructor|].
  inversion H as [|x xs Hnotin Hnd]; subst.
  destruct (p a); simpl; [|auto].
  constructor; [|auto]. intros Hin. apply Hnotin. exact (ids_filter _ _ _ Hin).
Qed.

Lemma create_task_wf now u s :
  db_wf s -> db_wf (snd (TaskService.create_task now u s)).
Proof.
  intros [Hnd Hlt]. rewrite create_task_spec. unfold db_wf. simpl. split.
  - rewrite List.map_app. simpl. apply NoDup_app. split; [exact Hnd|].
    split; [|apply NoDup_singleton].
    intros x Hx Hx'. apply list_elem_of_singleton in Hx'. subst x.
    apply list_elem_of_In, in_map_iff in Hx as (r & Hr & Hin).
    rewrite List.Forall_forall in Hlt. specialize (Hlt r Hin). lia.
  - apply Forall_app. split.
    + eapply Forall_impl; [exact Hlt|]. simpl. intros; lia.
    + constructor; [simpl; lia | constructor].
Qed.

Lemma update_task_wf now task_id u s :
  db_wf s -> db_wf (snd (TaskService.update_task now task_id u s)).
Proof.
  intros [Hnd Hlt]. destruct (lookup_row task_id (rows s)) as [t|] eqn:H.
  - destruct (update_task_found now task_id u s t H)
      as (t' & s' & -> & Hn & Hids & _). simpl. split.
    + now rewrite Hids.
    + rewrite Hn. apply List.Forall_forall. intros r Hin.
      assert (Hr : In (Task.id r) (map Task.id (rows s')))
        by (apply in_map; exact Hin).
      rewrite Hids in Hr. apply in_map_iff in Hr as (r0 & <- & Hin0).
      rewrite List.Forall_forall in Hlt. exact (Hlt r0 Hin0).
  - rewrite (update_task_absent _ _ _ _ H). now split.
Qed.

Lemma delete_task_wf task_id s :
  db_wf s -> db_wf (snd (TaskService.delete_task task_id s)).
Proof.
  intros [Hnd Hlt]. destruct (lookup_row task_id (rows s)) as [t|] eqn:H.
  - rewrite (delete_task_found _ _ _ H). simpl. split.
    + now apply NoDup_ids_filter.
    + apply List.Forall_forall. intros r Hin. apply filter_In in Hin as [Hin _].
      rewrite List.Forall_forall in Hlt. exact (Hlt r Hin).
  - rewrite (delete_task_absent _ _ H). now split.
Qed.

End wellformed.

(** ** The five task routes, request by request *)

Section endpoints.
Implicit Types (s : database) (seg : string) (task_id now : Z).

Lemma app_get_tasks now req_body s :
  main.app now (mkRequest GET "/api/tasks/" req_body) s
  = (mkResponse 200 (main.views (rows s)), s).
Proof. reflexivity. Qed.

Lemma app_create_task now req_body s :
  main.app now (mkRequest POST "/api/tasks/" req_body) s =
    match schemas.validate req_body with
    | Some u =>
        let (row, s') := TaskService.create_task now u s in
        (mkResponse 200 (main.view row), s')
    | None => (unprocessable, s)
    end.
Proof.
  change (main.app now (mkRequest POST "/api/tasks/" req_body) s)
    with (main.call now Endpoint.create_task [] req_body s).
  unfold main.call. destruct (schemas.validate req_body); reflexivity.
Qed.

Lemma app_get_task now seg task_id req_body s :
  int_validator seg = Some task_id ->
  main.app now (mkRequest GET (item_path seg) req_body) s =
    (match lookup_row task_id (rows s) with
     | Some row => mkResponse 200 (main.view row)
     | None => not_found
     end, s).
Proof.
  intros H. rewrite (app_item_route now GET Endpoint.get_task seg task_id);
    [|exact H|set_solver].
  unfold main.call, main.path_task_id. rewrite H.
  unfold bind, routers.get_task, bind, TaskService.get_task, query_first.
  destruct (lookup_row task_id (rows s)); reflexivity.
Qed.

Lemma app_update_task now seg task_id req_body s :
  int_validator seg = Some task_id ->
  main.app now (mkRequest PUT (item_path seg) req_body) s =
    match schemas.validate req_body with
    | Some u =>
        let (found, s') := TaskService.update_task now task_id u s in
        (match found with
         | Some row => mkResponse 200 (main.view row)
         | None => not_found
         end, s')
    | None => (unprocessable, s)
    end.
Proof.
  intros H. rewrite (app_item_route now PUT Endpoint.update_task seg task_id);
    [|exact H|set_solver].
  unfold main.call, main.path_task_id. rewrite H.
  destruct (schemas.validate req_body) as [u|]; [|reflexivity].
  unfold bind at 1. unfold routers.update_task, bind at 1.
  destruct (TaskService.update_task now task_id u s) as [[row|] s'];
    reflexivity.
Qed.

Lemma app_delete_task now seg task_id req_body s :
  int_validator seg = Some task_id ->
  main.app now (mkRequest DELETE (item_path seg) req_body) s =
    let (deleted, s') := TaskService.delete_task task_id s in
    (if deleted
     then mkResponse 200 (Object [("message", "Task deleted successfully")])
     else not_found, s').
Proof.
  intros H. rewrite (app_item_route now DELETE Endpoint.delete_task seg task_id);
    [|exact H|set_solver].
  unfold main.call, main.path_task_id. rewrite H.
  unfold bind at 1. unfold routers.delete_task, bind at 1.
  destruct (TaskService.delete_task task_id s) as [[|] s']; reflexivity.
Qed.

Lemma call_wf now e params req_body s :
  db_wf s -> db_wf (snd (main.call now e params req_body s)).
Proof.
  intros Hwf. destruct e; unfold main.call.
  - exact Hwf.
  - destruct (schemas.validate req_body) as [u|]; [|exact Hwf].
    exact (create_task_wf now u s Hwf).
  - destruct (main.path_task_id params) as [task_id|]; [|exact Hwf].
    unfold bind, routers.get_task, bind, TaskService.get_task, query_first.
    destruct (lookup_row task_id (rows s)); exact Hwf.
  - destruct (main.path_task_id params) as [task_id|]; [|exact Hwf].
    destruct (schemas.validate req_body) as [u|]; [|exact Hwf].
    pose proof (update_task_wf now task_id u s Hwf) as H.
    unfold bind at 1. unfold routers.update_task, bind at 1.
    destruct (TaskService.update_task now task_id u s) as [[row|] s']; exact H.
  - destruct (main.path_task_id params) as [task_id|]; [|exact Hwf].
    pose proof (delete_task_wf task_id s Hwf) as H.
    unfold bind at 1. unfold routers.delete_task, bind at 1.
    destruct (TaskService.delete_task task_id s) as [[|] s']; exact H.
  - exact Hwf.
  - exact Hwf.
Qed.

Lemma app_wf now req s : db_wf s -> db_wf (snd (main.app now req s)).
Proof.
  intros Hwf. unfold main.app.
  destruct (main.full_match main.routes (method req) (path req)) as [[e params]|].
  - now apply call_wf.
  - repeat match goal with
           | |- context [if ?b then _ else _] => destruct b
           end; exact Hwf.
Qed.

Lemma empty_db_wf : db_wf empty_db.
Proof. split; constructor. Qed.

Lemma reachable_wf s : reachable s -> db_wf s.
Proof.
  induction 1 as [|now req s _ IH]; [exact empty_db_wf | now apply app_wf].
Qed.

End endpoints.

(** ** Validation of request bodies *)

Section validation.
Implicit Types (d : gmap string json) (u : schemas.TaskBase).

Lemma TaskStatus_of_value_inv v st :
  TaskStatus_of_value v = Some st -> v = TaskStatus_value st.
Proof.
  unfold TaskStatus_of_value.
  destruct (String.eqb_spec v "PENDING") as [->|_]; [now intros [= <-]|].
  destruct (String.eqb_spec v "IN_PROGRESS") as [->|_]; [now intros [= <-]|].
  destruct (String.eqb_spec v "COMPLETED") as [->|_]; [now intros [= <-]|].
  discriminate.
Qed.

Lemma TaskStatus_of_value_value st :
  TaskStatus_of_value (TaskStatus_value st) = Some st.
Proof. now destruct st. Qed.

Lemma TaskStatus_value_literal st : In (TaskStatus_value st) status_literals.
Proof. destruct st; simpl; auto. Qed.

(** A validated model agrees with the members of the body it came from. *)
Lemma validate_inv d u :
  schemas.validate (Some (JObj d)) = Some u ->
  d !! "title" = Some (JStr (schemas.title u)) /\
  match d !! "description" with
  | None => schemas.description u = None
  | Some j => j = json_of_description (schemas.description u)
  end /\
  match d !! "status" with
  | None => schemas.status u = PENDING
  | Some j => j = JStr (TaskStatus_value (schemas.status u))
  end /\
  schemas.fields_set u = dom d ∩ schemas.model_fields.
Proof.
  unfold schemas.validate, schemas.validate_title,
    schemas.validate_description, schemas.validate_status.
  destruct (d !! "title") as [[| | |t| |]|]; simpl; try discriminate.
  destruct (d !! "description") as [[| | |de| |]|]; simpl; try discriminate;
    (destruct (d !! "status") as [[| | |v| |]|]; simpl; try discriminate;
     [destruct (TaskStatus_of_value v) as [st|] eqn:Hv; simpl; [|discriminate];
      apply TaskStatus_of_value_inv in Hv; subst v|];
     intros [= <-]; simpl; auto).
Qed.

Lemma validate_no_title d :
  (forall t, d !! "title" <> Some (JStr t)) ->
  schemas.validate (Some (JObj d)) = None.
Proof.
  intros H. unfold schemas.validate, schemas.validate_title.
  destruct (d !! "title") as [[| | |t| |]|]; try reflexivity.
  now destruct (H t).
Qed.

Lemma validate_bad_status d j :
  d !! "status" = Some j ->
  (forall st, j <> JStr (TaskStatus_value st)) ->
  schemas.validate (Some (JObj d)) = None.
Proof.
  intros Hj Hbad. destruct (schemas.validate (Some (JObj d))) as [u|] eqn:Hu;
    [|reflexivity].
  apply validate_inv in Hu as (_ & _ & Hs & _). rewrite Hj in Hs.
  now destruct (Hbad (schemas.status u)).
Qed.

(** A field counts as set exactly when the body has a member of its name. *)
Lemma fields_set_spec d u k :
  schemas.validate (Some (JObj d)) = Some u ->
  k ∈ schemas.model_fields ->
  bool_decide (k ∈ schemas.fields_set u) = bool_decide (is_Some (d !! k)).
Proof.
  intros Hu Hk. apply validate_inv in Hu as (_ & _ & _ & ->).
  apply bool_decide_ext. rewrite elem_of_intersection, elem_of_dom. tauto.
Qed.

End validation.

(** ** Updates through the route *)

Section update_route.
Implicit Types (s : database) (d : gmap string json) (u : schemas.TaskBase).

Lemma app_update_found now seg task_id d u s t :
  int_validator seg = Some task_id ->
  lookup_row task_id (rows s) = Some t ->
  schemas.validate (Some (JObj d)) = Some u ->
  exists t' s',
    main.app now (mkRequest PUT (item_path seg) (Some (JObj d))) s
      = (mkResponse 200 (main.view t'), s') /\
    (forall k, lookup_row k (rows s') =
               if (k =? task_id)%Z then Some t' else lookup_row k (rows s)) /\
    Task.id t' = task_id /\
    Task.created_at t' = Task.created_at t /\
    Task.title t' = schemas.title u /\
    Task.description t' =
      (if bool_decide (is_Some (d !! "description"))
       then schemas.description u else Task.description t) /\
    Task.status t' =
      (if bool_decide (is_Some (d !! "status"))
       then schemas.status u else Task.status t).
Proof.
  intros Hseg Ht Hu.
  destruct (update_task_found now task_id u s t Ht)
    as (t' & s' & Hupd & _ & _ & Hlk & Hid & Hc & Hti & Hde & Hst).
  exists t', s'. rewrite (app_update_task now seg task_id _ s Hseg), Hu, Hupd.
  rewrite (fields_set_spec d u "title" Hu) in Hti by set_solver.
  rewrite (fields_set_spec d u "description" Hu) in Hde by set_solver.
  rewrite (fields_set_spec d u "status" Hu) in Hst by set_solver.
  destruct (validate_inv d u Hu) as (Htitle & _).
  rewrite Htitle in Hti. rewrite bool_decide_eq_true_2 in Hti by eauto.
  repeat split; assumption.
Qed.

Lemma app_update_invalid now seg task_id req_body s :
  int_validator seg = Some task_id ->
  schemas.validate req_body = None ->
  main.app now (mkRequest PUT (item_path seg) req_body) s = (unprocessable, s).
Proof.
  intros Hseg Hv. now rewrite (app_update_task now seg task_id _ s Hseg), Hv.
Qed.

End update_route.

(** ** What one request can do to the store *)

Section steps.
Implicit Types (s : database) (req : Request).

Lemma full_match_sound rs m p e params :
  main.full_match rs m p = Some (e, params) ->
  exists r, In r rs /\ route_method r = m /\ route_endpoint r = e /\
            match_path (route_path r) p = Some params.
Proof.
  induction rs as [|r rs IH]; simpl; [discriminate|].
  destruct (match_path (route_path r) p) as [ps|] eqn:Hp.
  - destruct (decide (route_method r = m)) as [Hm|Hm].
    + intros [= <- <-]. exists r. auto.
    + intros H. destruct (IH H) as (r' & Hin & Hr'). exists r'. auto.
  - intros H. destruct (IH H) as (r' & Hin & Hr'). exists r'. auto.
Qed.

(** Every request either leaves the store as it is, or runs exactly one of
    the three writing service operations, under the method of its route. *)
Lemma app_step now req s :
  snd (main.app now req s) = s \/
  (method req = POST /\ exists u,
     schemas.validate (body req) = Some u /\
     snd (main.app now req s) = snd (TaskService.create_task now u s)) \/
  (method req = PUT /\ exists task_id u,
     schemas.validate (body req) = Some u /\
     snd (main.app now req s) = snd (TaskService.update_task now task_id u s)) \/
  (method req = DELETE /\ exists task_id,
     snd (main.app now req s) = snd (TaskService.delete_task task_id s)).
Proof.
  unfold main.app.
  destruct (main.full_match main.routes (method req) (path req))
    as [[e params]|] eqn:Hm.
  - apply full_match_sound in Hm as (r & Hin & Hmeth & He & _).
    rewrite routes_table in Hin. simpl in Hin.
    destruct Hin as [<-|[<-|[<-|[<-|[<-|[<-|[<-|[]]]]]]]];
      simpl in Hmeth, He; subst e; unfold main.call.
    + left. reflexivity.
    + destruct (schemas.validate (body req)) as [u|] eqn:Hu; [|left; reflexivity].
      right. left. split; [now symmetry|]. exists u. split; [reflexivity|].
      unfold bind, routers.create_task, bind.
      destruct (TaskService.create_task now u s). reflexivity.
    + left. destruct (main.path_task_id params) as [task_id|]; [|reflexivity].
      unfold bind, routers.get_task, bind, TaskService.get_task, query_first.
      destruct (lookup_row task_id (rows s)); reflexivity.
    + destruct (main.path_task_id params) as [task_id|]; [|left; reflexivity].
      destruct (schemas.validate (body req)) as [u|] eqn:Hu; [|left; reflexivity].
      right. right. left. split; [now symmetry|]. exists task_id, u.
      split; [reflexivity|].
      unfold bind at 1. unfold routers.update_task, bind at 1.
      destruct (TaskService.update_task now task_id u s) as [[row|] s'];
        reflexivity.
    + destruct (main.path_task_id params) as [task_id|]; [|left; reflexivity].
      right. right. right. split; [now symmetry|]. exists task_id.
      unfold bind at 1. unfold routers.delete_task, bind at 1.
      destruct (TaskService.delete_task task_id s) as [[|] s']; reflexivity.
    + left. reflexivity.
    + left. reflexivity.
  - left.
    repeat match goal with
           | |- context [if ?b then _ else _] => destruct b
           end; reflexivity.
Qed.

End steps.

(** ** The service at the level of attributes *)

Section attribute_level.
Implicit Types (obj : gmap string pyvalue) (t : attributes.table) (r : Task.t).

Lemma of_row_inj r r' : attributes.of_row r = attributes.of_row r' -> r = r'.
Proof.
  destruct r as [i ti de st c u], r' as [i' ti' de' st' c' u']. intros H.
  pose proof (f_equal (fun m => m !! "id") H) as Hi.
  pose proof (f_equal (fun m => m !! "title") H) as Hti.
  pose proof (f_equal (fun m => m !! "description") H) as Hde.
  pose proof (f_equal (fun m => m !! "status") H) as Hst.
  pose proof (f_equal (fun m => m !! "created_at") H) as Hc.
  pose proof (f_equal (fun m => m !! "updated_at") H) as Hu.
  clear H. vm_compute in Hi, Hti, Hde, Hst, Hc, Hu.
  injection Hi as ->. injection Hti as ->. injection Hst as ->. injection Hc as ->.
  assert (de = de') as -> by (destruct de, de'; congruence).
  assert (u = u') as -> by (destruct u, u'; congruence).
  reflexivity.
Qed.

Lemma has_id_of_row task_id r :
  attributes.has_id task_id (attributes.of_row r) = (Task.id r =? task_id)%Z.
Proof.
  unfold attributes.has_id.
  change (attributes.of_row r !! "id") with (Some (PyInt (Task.id r))).
  destruct (Z.eqb_spec (Task.id r) task_id) as [->|Hne].
  - now apply bool_decide_eq_true_2.
  - apply bool_decide_eq_false_2. congruence.
Qed.

Lemma first_of_db task_id s :
  attributes.first task_id (attributes.of_db s)
  = attributes.of_row <$> lookup_row task_id (rows s).
Proof.
  unfold attributes.first, attributes.of_db, lookup_row. simpl.
  induction (rows s) as [|a rs IH]; simpl; [reflexivity|].
  rewrite has_id_of_row. destruct (Task.id a =? task_id)%Z; [reflexivity | exact IH].
Qed.

(** Assigning the items of a model to the attributes of a row is [setattr]
    on the row. *)
Lemma setattr_of_row exclude_unset (task : schemas.TaskBase) r :
  fold_left attributes.setattr (attributes.items exclude_unset task)
    (attributes.of_row r)
  = attributes.of_row (fold_left setattr (schemas.dict exclude_unset task) r).
Proof.
  unfold attributes.items, schemas.dict. simpl.
  destruct (implb exclude_unset (bool_decide ("title" ∈ schemas.fields_set task)));
    destruct (implb exclude_unset
                (bool_decide ("description" ∈ schemas.fields_set task)));
    destruct (implb exclude_unset (bool_decide ("status" ∈ schemas.fields_set task)));
    destruct r as [i ti de st c u], task as [ti' [de'|] st' fs];
    reflexivity.
Qed.

Lemma filter_map_objects (p : gmap string pyvalue -> bool) (rs : list Task.t) :
  List.filter p (map attributes.of_row rs)
  = map attributes.of_row (List.filter (fun r => p (attributes.of_row r)) rs).
Proof.
  induction rs as [|a rs IH]; simpl; [reflexivity|].
  destruct (p (attributes.of_row a)); simpl; now rewrite IH.
Qed.

(** The typed service is the attribute-level service on the attributes of
    its rows. *)
Lemma create_task_attributes now (task : schemas.TaskBase) s :
  attributes.create_task now task (attributes.of_db s)
  = (attributes.of_row (fst (TaskService.create_task now task s)),
     attributes.of_db (snd (TaskService.create_task now task s))).
Proof.
  rewrite create_task_spec. cbv zeta.
  unfold attributes.create_task, attributes.of_db. cbn [fst snd rows next_id
    attributes.objects attributes.counter].
  rewrite List.map_app. cbn [map].
  replace (<["id":=PyInt (next_id s)]>
             (<["created_at":=PyInt now]>
                (<["updated_at":=PyNone]>
                   (fold_left attributes.setattr (attributes.items false task) ∅))))
    with (attributes.of_row
            (Task.mk (next_id s) (schemas.title task) (schemas.description task)
                     (schemas.status task) now None));
    [reflexivity|].
  destruct task as [ti [de|] st fs]; reflexivity.
Qed.

Lemma update_task_attributes now task_id (task : schemas.TaskBase) s :
  attributes.update_task now task_id task (attributes.of_db s)
  = (attributes.of_row <$> fst (TaskService.update_task now task_id task s),
     attributes.of_db (snd (TaskService.update_task now task_id task s))).
Proof.
  unfold attributes.update_task, TaskService.update_task, bind, query_first.
  rewrite first_of_db.
  destruct (lookup_row task_id (rows s)) as [row|] eqn:Hrow; [|reflexivity].
  destruct (lookup_row_Some _ _ _ Hrow) as [_ Hid].
  cbn [fmap option_fmap option_map]. rewrite setattr_of_row.
  unfold commit_refresh, ret.
  destruct (decide (row = fold_left setattr (schemas.dict true task) row)) as [E|E].
  - rewrite decide_True by (now f_equal). reflexivity.
  - rewrite decide_False by (intros H; apply E, of_row_inj, H).
    cbn [fst snd fmap option_fmap option_map].
    set (assigned := fold_left setattr (schemas.dict true task) row).
    replace (<["updated_at":=PyInt now]> (attributes.of_row assigned))
      with (attributes.of_row
              (Task.mk (Task.id assigned) (Task.title assigned)
                 (Task.description assigned) (Task.status assigned)
                 (Task.created_at assigned) (Some now)))
      by (destruct assigned as [i ti de st c [u|]]; reflexivity).
    f_equal. unfold attributes.of_db. cbn [rows next_id attributes.objects].
    f_equal. rewrite !List.map_map. apply List.map_ext. intros r.
    rewrite has_id_of_row, Hid. now destruct (Task.id r =? task_id)%Z.
Qed.

Lemma delete_task_attributes task_id s :
  attributes.delete_task task_id (attributes.of_db s)
  = (fst (TaskService.delete_task task_id s),
     attributes.of_db (snd (TaskService.delete_task task_id s))).
Proof.
  unfold attributes.delete_task. rewrite first_of_db.
  destruct (lookup_row task_id (rows s)) as [row|] eqn:Hrow.
  - rewrite (delete_task_found task_id s row Hrow). cbn [fmap option_fmap option_map fst snd].
    unfold attributes.of_db. cbn [rows next_id attributes.objects attributes.counter].
    rewrite filter_map_objects. do 3 f_equal.
    apply List.filter_ext. intros r. now rewrite has_id_of_row.
  - now rewrite (delete_task_absent task_id s Hrow).
Qed.

(** Whatever requests the application has served, its table is one the
    attribute-level operations reach. *)
Lemma reachable_attributes s : reachable s -> attributes.reachable (attributes.of_db s).
Proof.
  induction 1 as [|now req s _ IH]; [constructor|].
  destruct (app_step now req s)
    as [H|[[_ (u & _ & H)]|[[_ (task_id & u & _ & H)]|[_ (task_id & H)]]]];
    rewrite H.
  - exact IH.
  - replace (attributes.of_db (snd (TaskService.create_task now u s)))
      with (snd (attributes.create_task now u (attributes.of_db s)))
      by (now rewrite create_task_attributes).
    now constructor.
  - replace (attributes.of_db (snd (TaskService.update_task now task_id u s)))
      with (snd (attributes.update_task now task_id u (attributes.of_db s)))
      by (now rewrite update_task_attributes).
    now constructor.
  - replace (attributes.of_db (snd (TaskService.delete_task task_id s)))
      with (snd (attributes.delete_task task_id (attributes.of_db s)))
      by (now rewrite delete_task_attributes).
    now constructor.
Qed.

(** An object holds a status when its [status] attribute is a member of the
    enumeration. *)
Lemma setattr_keeps_status exclude_unset (task : schemas.TaskBase) obj :
  (exists member, obj !! "status" = Some (PyStatus member)) ->
  exists member,
    fold_left attributes.setattr (attributes.items exclude_unset task) obj !! "status"
    = Some (PyStatus member).
Proof.
  intros [m Hm]. unfold attributes.items, schemas.dict. simpl.
  destruct (implb exclude_unset (bool_decide ("title" ∈ schemas.fields_set task)));
    destruct (implb exclude_unset
                (bool_decide ("description" ∈ schemas.fields_set task)));
    destruct (implb exclude_unset (bool_decide ("status" ∈ schemas.fields_set task)));
    simpl; unfold attributes.setattr; simpl;
    repeat first [ rewrite lookup_insert_eq | rewrite lookup_insert_ne by discriminate ];
    eauto.
Qed.

Lemma create_task_status now (task : schemas.TaskBase) t :
  fst (attributes.create_task now task t) !! "status"
  = Some (PyStatus (schemas.status task)).
Proof. destruct task as [ti [de|] st fs]; reflexivity. Qed.

Lemma update_task_result_status now task_id (task : schemas.TaskBase) t obj :
  (forall o, In o (attributes.objects t) ->
     exists member, o !! "status" = Some (PyStatus member)) ->
  fst (attributes.update_task now task_id task t) = Some obj ->
  exists member, obj !! "status" = Some (PyStatus member).
Proof.
  intros Hall. unfold attributes.update_task.
  destruct (attributes.first task_id t) as [db_task|] eqn:Hf; [|discriminate].
  apply List.find_some in Hf as [Hin _].
  destruct (setattr_keeps_status true task db_task (Hall _ Hin)) as [m Hm].
  destruct (decide _); simpl; intros [= <-].
  - eauto.
  - rewrite lookup_insert_ne by discriminate. eauto.
Qed.

(** The invariant of the table: in every reachable table, each object's
    [status] attribute is a member of the enumeration. *)
Lemma reachable_status t :
  attributes.reachable t ->
  forall obj, In obj (attributes.objects t) ->
    exists member, obj !! "status" = Some (PyStatus member).
Proof.
  induction 1 as [|now task t _ IH|now task_id task t _ IH|task_id t _ IH];
    intros obj Hin.
  - destruct Hin.
  - simpl in Hin. apply in_app_or in Hin as [Hin|[<-|[]]]; [now apply IH|].
    exists (schemas.status task). exact (create_task_status now task t).
  - pose proof (update_task_result_status now task_id task t) as Hres.
    unfold attributes.update_task in *.
    destruct (attributes.first task_id t) as [db_task|] eqn:Hf; [|now apply IH].
    destruct (decide _); [now apply IH|].
    simpl in Hin. apply in_map_iff in Hin as (o & Ho & Hino).
    destruct (attributes.has_id task_id o); [|subst o; now apply IH].
    subst obj. apply (Hres _ IH). reflexivity.
  - unfold attributes.delete_task in Hin.
    destruct (attributes.first task_id t); [|now apply IH].
    simpl in Hin. apply filter_In in Hin as [Hin _]. now apply IH.
Qed.

End attribute_level.

(** * The claims *)

(** C1 (as the code has it).  For a task present in the store, an update
    request whose body passes validation -- which requires [title] -- succeeds
    and overwrites the supplied fields only: [description] and [status] keep
    their stored values when the body has no such member.  A body without
    [title], such as one supplying only [description], is rejected with 422 and
    the store is unchanged.  At the service, every field outside the input's
    set of supplied fields is left untouched, [title] included. *)
Theorem C1_update_keeps_unsupplied_fields now seg task_id s t :
  int_validator seg = Some task_id ->
  lookup_row task_id (rows s) = Some t ->
  (forall d u, schemas.validate (Some (JObj d)) = Some u ->
     exists t' s',
       main.app now (mkRequest PUT (item_path seg) (Some (JObj d))) s
         = (mkResponse 200 (main.view t'), s') /\
       lookup_row task_id (rows s') = Some t' /\
       d !! "title" = Some (JStr (Task.title t')) /\
       (d !! "description" = None -> Task.description t' = Task.description t) /\
       (d !! "status" = None -> Task.status t' = Task.status t)) /\
  (forall d, d !! "title" = None ->
     main.app now (mkRequest PUT (item_path seg) (Some (JObj d))) s
       = (unprocessable, s)) /\
  (forall u, exists t' s',
     TaskService.update_task now task_id u s = (Some t', s') /\
     lookup_row task_id (rows s') = Some t' /\
     ("title" ∉ schemas.fields_set u -> Task.title t' = Task.title t) /\
     ("description" ∉ schemas.fields_set u ->
        Task.description t' = Task.description t) /\
     ("status" ∉ schemas.fields_set u -> Task.status t' = Task.status t)).
Proof.
  intros Hseg Ht. split; [|split].
  - intros d u Hu.
    destruct (app_update_found now seg task_id d u s t Hseg Ht Hu)
      as (t' & s' & Happ & Hlk & _ & _ & Hti & Hde & Hst).
    exists t', s'. split; [exact Happ|]. split.
    { rewrite Hlk, Z.eqb_refl. reflexivity. }
    destruct (validate_inv d u Hu) as (Htitle & _). split.
    { now rewrite Hti. }
    split; intros Hnone.
    + rewrite Hnone in Hde. rewrite bool_decide_eq_false_2 in Hde; [exact Hde|].
      intros [? ?]; discriminate.
    + rewrite Hnone in Hst. rewrite bool_decide_eq_false_2 in Hst; [exact Hst|].
      intros [? ?]; discriminate.
  - intros d Hnone. apply (app_update_invalid now seg task_id _ s Hseg).
    apply validate_no_title. intros x. rewrite Hnone. discriminate.
  - intros u.
    destruct (update_task_found now task_id u s t Ht)
      as (t' & s' & Hupd & _ & _ & Hlk & _ & _ & Hti & Hde & Hst).
    exists t', s'. split; [exact Hupd|]. split.
    { rewrite Hlk, Z.eqb_refl. reflexivity. }
    repeat split; intros Hnot.
    + now rewrite bool_decide_eq_false_2 in Hti.
    + now rewrite bool_decide_eq_false_2 in Hde.
    + now rewrite bool_decide_eq_false_2 in Hst.
Qed.

(** A request supplying [title] and [description] leaves [status] alone. *)
Lemma C1_update_keeps_unsupplied_fields_witness :
  exists t' s',
    main.app 200
      (mkRequest PUT "/api/tasks/1"
         (Some (json_obj [("title", JStr "Renamed"); ("description", JStr "New")])))
      sample_db
      = (mkResponse 200 (main.view t'), s') /\
    lookup_row 1 (rows s') = Some t' /\
    Task.status t' = Task.status sample_task.
Proof.
  destruct (C1_update_keeps_unsupplied_fields 200 "1" 1 sample_db sample_task
              eq_refl eq_refl) as [H _].
  destruct (H (list_to_map [("title", JStr "Renamed"); ("description", JStr "New")])
              (schemas.mk "Renamed" (Some "New") PENDING
                 (dom (list_to_map (M := gmap string json)
                         [("title", JStr "Renamed"); ("description", JStr "New")])
                  ∩ schemas.model_fields)))
    as (t' & s' & Happ & Hlk & _ & _ & Hst).
  { vm_compute. reflexivity. }
  exists t', s'. split; [exact Happ|]. split; [exact Hlk|].
  apply Hst. vm_compute. reflexivity.
Defined.

(** C1 as stated fails: the task is present, the request supplies only
    [description], and it is rejected instead of succeeding. *)
Lemma C1_description_only_rejected :
  lookup_row 1 (rows sample_db) = Some sample_task /\
  main.app 200
    (mkRequest PUT "/api/tasks/1" (Some (json_obj [("description", JStr "New")])))
    sample_db
  = (mkResponse 422 ValidationErrors, sample_db).
Proof. split; vm_compute; reflexivity. Qed.

(** C2 (as the code has it).  On create, [title] must be a string: a request
    whose body is not an object, has no [title] or has a [title] of another
    type is rejected with 422 before the service runs, and the store is
    unchanged.  The string may be empty: a body supplying just a [title],
    whatever its text, creates a row with that title. *)
Theorem C2_title_must_be_string now s :
  (forall req_body,
     (forall d t, req_body = Some (JObj d) -> d !! "title" <> Some (JStr t)) ->
     main.app now (mkRequest POST "/api/tasks/" req_body) s = (unprocessable, s)) /\
  (forall t, exists row,
     main.app now (mkRequest POST "/api/tasks/" (Some (json_obj [("title", JStr t)]))) s
       = (mkResponse 200 (main.view row), mkdb (rows s ++ [row]) (next_id s + 1)) /\
     Task.title row = t).
Proof.
  split.
  - intros req_body H. rewrite app_create_task.
    destruct req_body as [[| | | | |d]|]; try reflexivity.
    rewrite validate_no_title; [reflexivity|]. intros t. now apply H.
  - intros t. rewrite app_create_task. eexists. split; reflexivity.
Qed.

Lemma C2_title_must_be_string_witness :
  main.app 100
    (mkRequest POST "/api/tasks/" (Some (json_obj [("title", JNum 7)]))) empty_db
  = (unprocessable, empty_db).
Proof.
  apply (proj1 (C2_title_must_be_string 100 empty_db)).
  intros d t [= <-]. vm_compute. discriminate.
Defined.

(** C2 as stated fails: an empty [title] passes validation and a row with the
    empty title is stored. *)
Lemma C2_empty_title_accepted :
  main.app 100 (mkRequest POST "/api/tasks/" (Some (json_obj [("title", JStr "")])))
    empty_db
  = (mkResponse 200 (main.view (Task.mk 1 "" None PENDING 100 None)),
     mkdb [Task.mk 1 "" None PENDING 100 None] 2).
Proof. vm_compute. reflexivity. Qed.

(** C3 (as the code has it).  For an id with no row in the store, GET and
    DELETE on [/api/tasks/{id}] answer 404 with detail "Task not found", and so
    does PUT when its body passes validation; a PUT whose body fails
    validation is answered 422 before the lookup.  In each case the store is
    left as it was. *)
Theorem C3_absent_id_not_found now seg task_id s :
  int_validator seg = Some task_id ->
  lookup_row task_id (rows s) = None ->
  (forall req_body,
     main.app now (mkRequest GET (item_path seg) req_body) s = (not_found, s)) /\
  (forall req_body,
     main.app now (mkRequest DELETE (item_path seg) req_body) s = (not_found, s)) /\
  (forall req_body,
     main.app now (mkRequest PUT (item_path seg) req_body) s =
       (match schemas.validate req_body with
        | Some _ => not_found
        | None => unprocessable
        end, s)) /\
  status_code not_found = 404 /\
  body_of not_found = Object [("detail", "Task not found")].
Proof.
  intros Hseg Hnone. repeat split.
  - intros req_body. now rewrite (app_get_task now seg task_id _ s Hseg), Hnone.
  - intros req_body.
    now rewrite (app_delete_task now seg task_id _ s Hseg),
      (delete_task_absent task_id s Hnone).
  - intros req_body. rewrite (app_update_task now seg task_id _ s Hseg).
    destruct (schemas.validate req_body) as [u|]; [|reflexivity].
    now rewrite (update_task_absent now task_id u s Hnone).
Qed.

Lemma C3_absent_id_not_found_witness :
  main.app 200 (mkRequest GET "/api/tasks/7" None) sample_db
  = (mkResponse 404 (Object [("detail", "Task not found")]), sample_db).
Proof.
  apply (C3_absent_id_not_found 200 "7" 7 sample_db); vm_compute; reflexivity.
Defined.

(** C3 as stated fails: a PUT on an absent id whose body lacks [title] is
    answered 422, not 404; and the path [/tasks/{id}] without the [/api]
    prefix matches no route, so its 404 carries detail "Not Found". *)
Lemma C3_put_invalid_body_is_422 :
  lookup_row 7 (rows sample_db) = None /\
  main.app 200
    (mkRequest PUT "/api/tasks/7" (Some (json_obj [("description", JStr "New")])))
    sample_db
  = (mkResponse 422 ValidationErrors, sample_db) /\
  main.app 200 (mkRequest GET "/tasks/7" None) sample_db
  = (mkResponse 404 (Object [("detail", "Not Found")]), sample_db).
Proof. repeat split; vm_compute; reflexivity. Qed.

(** C4 (as the code has it).  The task API is served under the [/api]
    prefix: list at GET [/api/tasks/], create at POST [/api/tasks/], and
    read, update, delete at GET, PUT, DELETE [/api/tasks/{task_id}]; each
    answers 200 on success.  [/api/tasks] without the trailing slash is
    redirected (307) to [/api/tasks/]. *)
Theorem C4_routes_under_api_prefix now s :
  map (fun r => (route_method r, route_path r, route_endpoint r)) main.routes =
    [ (GET, "/api/tasks/", Endpoint.get_tasks);
      (POST, "/api/tasks/", Endpoint.create_task);
      (GET, "/api/tasks/{task_id}", Endpoint.get_task);
      (PUT, "/api/tasks/{task_id}", Endpoint.update_task);
      (DELETE, "/api/tasks/{task_id}", Endpoint.delete_task);
      (GET, "/health", Endpoint.health_check);
      (GET, "/", Endpoint.root) ] /\
  (forall req_body,
     main.app now (mkRequest GET "/api/tasks/" req_body) s
       = (mkResponse 200 (main.views (rows s)), s)) /\
  (forall req_body u, schemas.validate req_body = Some u ->
     exists row s',
       main.app now (mkRequest POST "/api/tasks/" req_body) s
         = (mkResponse 200 (main.view row), s')) /\
  (forall seg task_id row req_body,
     int_validator seg = Some task_id ->
     lookup_row task_id (rows s) = Some row ->
     main.app now (mkRequest GET (item_path seg) req_body) s
       = (mkResponse 200 (main.view row), s) /\
     (forall d u, schemas.validate (Some (JObj d)) = Some u ->
        exists row' s',
          main.app now (mkRequest PUT (item_path seg) (Some (JObj d))) s
            = (mkResponse 200 (main.view row'), s')) /\
     exists s',
       main.app now (mkRequest DELETE (item_path seg) req_body) s
         = (mkResponse 200 (Object [("message", "Task deleted successfully")]), s')) /\
  (forall m req_body,
     m = GET \/ m = POST ->
     main.app now (mkRequest m "/api/tasks" req_body) s
       = (mkResponse 307 (Redirect "/api/tasks/"), s)).
Proof.
  split; [reflexivity|]. split; [intros; apply app_get_tasks|].
  split; [|split].
  - intros req_body u Hu. rewrite app_create_task, Hu.
    destruct (TaskService.create_task now u s) as [row s']. eauto.
  - intros seg task_id row req_body Hseg Hrow. split; [|split].
    + now rewrite (app_get_task now seg task_id _ s Hseg), Hrow.
    + intros d u Hu.
      destruct (app_update_found now seg task_id d u s row Hseg Hrow Hu)
        as (row' & s' & Happ & _). eauto.
    + rewrite (app_delete_task now seg task_id _ s Hseg),
        (delete_task_found task_id s row Hrow). eauto.
  - intros m req_body [->| ->]; reflexivity.
Qed.

Lemma C4_routes_under_api_prefix_witness :
  main.app 200 (mkRequest GET "/api/tasks/1" None) sample_db
  = (mkResponse 200 (main.view sample_task), sample_db).
Proof.
  apply (proj1 (proj1 (proj2 (proj2 (proj2 (C4_routes_under_api_prefix 200 sample_db))))
                  "1" 1 sample_task None eq_refl eq_refl)).
Defined.

(** C4 as stated fails: nothing is served at [/tasks] or [/tasks/{id}]; such
    requests match no route and are answered 404 "Not Found", also for an
    existing task and for a valid create body, which is not stored. *)
Lemma C4_tasks_path_not_served :
  main.app 200 (mkRequest GET "/tasks" None) sample_db
  = (mkResponse 404 (Object [("detail", "Not Found")]), sample_db) /\
  main.app 200 (mkRequest POST "/tasks" (Some (json_obj [("title", JStr "a")])))
    sample_db
  = (mkResponse 404 (Object [("detail", "Not Found")]), sample_db) /\
  lookup_row 1 (rows sample_db) = Some sample_task /\
  main.app 200 (mkRequest GET "/tasks/1" None) sample_db
  = (mkResponse 404 (Object [("detail", "Not Found")]), sample_db).
Proof. repeat split; vm_compute; reflexivity. Qed.

(** C5.  A create request that passes validation and has no [status] member
    stores a row whose status is [PENDING], and the view returned to the
    client carries the same status. *)
Theorem C5_default_status_pending now s d u :
  schemas.validate (Some (JObj d)) = Some u ->
  d !! "status" = None ->
  exists row,
    main.app now (mkRequest POST "/api/tasks/" (Some (JObj d))) s
      = (mkResponse 200 (Model (schemas.from_attributes row)),
         mkdb (rows s ++ [row]) (next_id s + 1)) /\
    Task.status row = PENDING /\
    schemas.r_status (schemas.from_attributes row) = PENDING /\
    TaskStatus_value (schemas.r_status (schemas.from_attributes row)) = "PENDING".
Proof.
  intros Hu Hnone. rewrite app_create_task, Hu, create_task_spec.
  eexists. split; [reflexivity|].
  destruct (validate_inv d u Hu) as (_ & _ & Hst & _). rewrite Hnone in Hst.
  simpl. rewrite Hst. auto.
Qed.

Lemma C5_default_status_pending_witness :
  exists row,
    main.app 100
      (mkRequest POST "/api/tasks/"
         (Some (json_obj [("title", JStr "Test Task")]))) empty_db
      = (mkResponse 200 (Model (schemas.from_attributes row)),
         mkdb (rows empty_db ++ [row]) (next_id empty_db + 1)) /\
    Task.status row = PENDING /\
    schemas.r_status (schemas.from_attributes row) = PENDING /\
    TaskStatus_value (schemas.r_status (schemas.from_attributes row)) = "PENDING".
Proof.
  eapply (C5_default_status_pending 100 empty_db
            (list_to_map [("title", JStr "Test Task")])).
  - vm_compute. reflexivity.
  - vm_compute. reflexivity.
Defined.

(** C6.  In a store with unique keys below the counter (every reachable
    store is such), creating a task from a valid input and then fetching the
    task by the id returned from creation yields the view that creation
    returned, whose [title], [description] and [status] are those of the
    input. *)
Theorem C6_create_then_get now now' s d u seg :
  db_wf s ->
  schemas.validate (Some (JObj d)) = Some u ->
  exists v s',
    main.app now (mkRequest POST "/api/tasks/" (Some (JObj d))) s
      = (mkResponse 200 (Model v), s') /\
    (int_validator seg = Some (schemas.r_id v) ->
     main.app now' (mkRequest GET (item_path seg) None) s'
       = (mkResponse 200 (Model v), s')) /\
    d !! "title" = Some (JStr (schemas.r_title v)) /\
    (forall j, d !! "description" = Some j ->
               j = json_of_description (schemas.r_description v)) /\
    (forall j, d !! "status" = Some j ->
               j = JStr (TaskStatus_value (schemas.r_status v))) /\
    schemas.r_title v = schemas.title u /\
    schemas.r_description v = schemas.description u /\
    schemas.r_status v = schemas.status u.
Proof.
  intros [Hnd Hlt] Hu. rewrite app_create_task, Hu, create_task_spec.
  eexists _, _. split; [reflexivity|]. split.
  - intros Hseg. rewrite (app_get_task now' seg _ None _ Hseg). simpl.
    rewrite lookup_row_app.
    assert (Hfresh : lookup_row (next_id s) (rows s) = None).
    { apply lookup_row_None. intros r Hin.
      rewrite List.Forall_forall in Hlt. specialize (Hlt r Hin). lia. }
    rewrite Hfresh. simpl. rewrite Z.eqb_refl. reflexivity.
  - destruct (validate_inv d u Hu) as (Ht & Hde & Hst & _). simpl.
    split; [exact Ht|]. split.
    { intros j Hj. now rewrite Hj in Hde. }
    split.
    { intros j Hj. now rewrite Hj in Hst. }
    auto.
Qed.

Lemma C6_create_then_get_witness :
  exists v s',
    main.app 100
      (mkRequest POST "/api/tasks/"
         (Some (json_obj [("title", JStr "Test Task");
                          ("description", JStr "Test Description");
                          ("status", JStr "IN_PROGRESS")]))) sample_db
      = (mkResponse 200 (Model v), s') /\
    main.app 300 (mkRequest GET "/api/tasks/2" None) s'
      = (mkResponse 200 (Model v), s') /\
    schemas.r_title v = "Test Task" /\
    schemas.r_description v = Some "Test Description" /\
    schemas.r_status v = IN_PROGRESS.
Proof.
  assert (Hwf : db_wf sample_db).
  { split.
    - apply NoDup_singleton.
    - repeat constructor. }
  destruct (C6_create_then_get 100 300 sample_db
              (list_to_map [("title", JStr "Test Task");
                            ("description", JStr "Test Description");
                            ("status", JStr "IN_PROGRESS")])
              (schemas.mk "Test Task" (Some "Test Description") IN_PROGRESS
                 schemas.model_fields)
              "2" Hwf)
    as (v & s' & Hpost & Hget & _ & _ & _ & Ht & Hde & Hst).
  { vm_compute. reflexivity. }
  exists v, s'. split; [exact Hpost|]. split; [|auto].
  apply Hget. revert Hpost. vm_compute. intros [= <- _]. reflexivity.
Defined.

(** C7.  In a store with unique keys, [delete_task id] returns [True] and
    removes exactly the row with that id when there is one (the rows before
    and after it stay as they are), and returns [False] leaving the store
    untouched otherwise.  After a DELETE answered 200, a GET on the same id is
    answered 404 "Task not found". *)
Theorem C7_delete_task task_id s :
  db_wf s ->
  (forall row, lookup_row task_id (rows s) = Some row ->
     exists l1 l2 : list Task.t,
       rows s = (l1 ++ row :: l2)%list /\
       TaskService.delete_task task_id s = (true, mkdb (l1 ++ l2) (next_id s)) /\
       lookup_row task_id (l1 ++ l2) = None /\
       forall now now' seg req_body,
         int_validator seg = Some task_id ->
         main.app now (mkRequest DELETE (item_path seg) req_body) s
           = (mkResponse 200 (Object [("message", "Task deleted successfully")]),
              mkdb (l1 ++ l2) (next_id s)) /\
         main.app now' (mkRequest GET (item_path seg) None)
                  (mkdb (l1 ++ l2) (next_id s))
           = (not_found, mkdb (l1 ++ l2) (next_id s))) /\
  (lookup_row task_id (rows s) = None ->
     TaskService.delete_task task_id s = (false, s)).
Proof.
  intros [Hnd _]. split; [|apply delete_task_absent].
  intros row Hrow.
  destruct (delete_unique task_id (rows s) row Hnd Hrow) as (l1 & l2 & Hs & Hf).
  assert (Hgone : lookup_row task_id (l1 ++ l2) = None).
  { rewrite <- Hf, lookup_row_delete, Z.eqb_refl. reflexivity. }
  assert (Hdel : TaskService.delete_task task_id s
                 = (true, mkdb (l1 ++ l2) (next_id s))).
  { rewrite (delete_task_found task_id s row Hrow), Hf. reflexivity. }
  exists l1, l2. split; [exact Hs|]. split; [exact Hdel|]. split; [exact Hgone|].
  intros now now' seg req_body Hseg. split.
  - now rewrite (app_delete_task now seg task_id _ s Hseg), Hdel.
  - rewrite (app_get_task now' seg task_id None _ Hseg). simpl.
    now rewrite Hgone.
Qed.

Lemma C7_delete_task_witness :
  TaskService.delete_task 1 sample_db = (true, mkdb [] 2) /\
  main.app 300 (mkRequest GET "/api/tasks/1" None) (mkdb [] 2)
  = (not_found, mkdb [] 2).
Proof.
  assert (Hwf : db_wf sample_db).
  { split.
    - apply NoDup_singleton.
    - repeat constructor. }
  destruct (proj1 (C7_delete_task 1 sample_db Hwf) sample_task eq_refl)
    as (l1 & l2 & Hrows & Hdel & _ & Hget).
  destruct l1 as [|a l1]; [|destruct l1; discriminate Hrows].
  injection Hrows as <-. split; [exact Hdel|].
  exact (proj2 (Hget 200 300 "1" None eq_refl)).
Defined.

(** C8.  In every table reached from the empty one by create, update and
    delete operations on validated inputs, the [status] attribute of every
    stored object holds one of the three members PENDING, IN_PROGRESS,
    COMPLETED -- never null, never another value -- and so does every object
    an operation returns; the status a client reads from it is one of the three
    literals.  The tables of the application are such tables, whatever requests
    it has served, and a body whose [status] member is anything else than one
    of the three literals is rejected on create and on update with the store
    unchanged. *)
Theorem C8_status_enumerated t :
  attributes.reachable t ->
  Forall attributes.enumerated (attributes.objects t) /\
  Forall attributes.enumerated (fst (attributes.get_all_tasks t)) /\
  (forall task_id obj,
     fst (attributes.get_task task_id t) = Some obj -> attributes.enumerated obj) /\
  (forall now task,
     attributes.enumerated (fst (attributes.create_task now task t))) /\
  (forall now task_id task obj,
     fst (attributes.update_task now task_id task t) = Some obj ->
     attributes.enumerated obj) /\
  (forall s, reachable s -> attributes.reachable (attributes.of_db s)) /\
  (forall now s d j,
     d !! "status" = Some j ->
     ~ (exists v, In v status_literals /\ j = JStr v) ->
     main.app now (mkRequest POST "/api/tasks/" (Some (JObj d))) s
       = (unprocessable, s) /\
     forall seg task_id, int_validator seg = Some task_id ->
       main.app now (mkRequest PUT (item_path seg) (Some (JObj d))) s
         = (unprocessable, s)).
Proof.
  intros Hreach.
  assert (Henum : forall obj,
            (exists member, obj !! "status" = Some (PyStatus member)) ->
            attributes.enumerated obj).
  { intros obj [member Hm]. exists member. split; [destruct member; simpl; auto|].
    split; [exact Hm|]. split.
    - unfold attributes.returned_status. now rewrite Hm.
    - apply TaskStatus_value_literal. }
  pose proof (reachable_status t Hreach) as Hinv.
  assert (Hall : Forall attributes.enumerated (attributes.objects t)).
  { apply List.Forall_forall. intros obj Hin. apply Henum, Hinv, Hin. }
  split; [exact Hall|]. split; [exact Hall|]. split; [|split; [|split; [|split]]].
  - intros task_id obj Hget. simpl in Hget.
    apply List.find_some in Hget as [Hin _]. apply Henum, Hinv, Hin.
  - intros now task. apply Henum. exists (schemas.status task).
    apply create_task_status.
  - intros now task_id task obj Hupd. apply Henum.
    exact (update_task_result_status now task_id task t obj Hinv Hupd).
  - exact reachable_attributes.
  - intros now s d j Hj Hbad.
    assert (Hv : schemas.validate (Some (JObj d)) = None).
    { apply (validate_bad_status d j Hj). intros st ->. apply Hbad.
      exists (TaskStatus_value st). split;
        [apply TaskStatus_value_literal | reflexivity]. }
    split.
    + now rewrite app_create_task, Hv.
    + intros seg task_id Hseg. now apply (app_update_invalid now seg task_id).
Qed.

(** A task created COMPLETED and then updated with a body that supplies
    [title] and [status] only: the stored object holds IN_PROGRESS. *)
Lemma C8_status_enumerated_witness :
  exists obj,
    attributes.objects
      (snd (attributes.update_task 200 1
              (schemas.mk "a" None IN_PROGRESS {[ "title"; "status" ]})
              (snd (attributes.create_task 100
                      (schemas.mk "a" (Some "d") COMPLETED schemas.model_fields)
                      attributes.empty))))
    = [obj] /\
    obj !! "status" = Some (PyStatus IN_PROGRESS) /\
    obj !! "description" = Some (PyStr "d") /\
    attributes.enumerated obj.
Proof.
  eexists. split; [vm_compute; reflexivity|].
  split; [vm_compute; reflexivity|]. split; [vm_compute; reflexivity|].
  pose proof (proj1 (C8_status_enumerated _
                       (attributes.reachable_update 200 1
                          (schemas.mk "a" None IN_PROGRESS {[ "title"; "status" ]}) _
                          (attributes.reachable_create 100
                             (schemas.mk "a" (Some "d") COMPLETED schemas.model_fields)
                             _ attributes.reachable_empty)))) as Hall.
  rewrite List.Forall_forall in Hall. apply Hall.
  vm_compute. left. reflexivity.
Defined.

(** C9.  Update is driven by presence, not by defaults.  For a task present
    in the store and a PUT whose body passes validation: a [status] or
    [description] member absent from the body leaves the stored field as it
    was; a member that is present overwrites it, also when the value is the
    schema default ([status] "PENDING") or an explicit [null] ([description],
    stored as null). *)
Theorem C9_update_is_presence_aware now seg task_id s t d u :
  int_validator seg = Some task_id ->
  lookup_row task_id (rows s) = Some t ->
  schemas.validate (Some (JObj d)) = Some u ->
  exists t' s',
    main.app now (mkRequest PUT (item_path seg) (Some (JObj d))) s
      = (mkResponse 200 (main.view t'), s') /\
    lookup_row task_id (rows s') = Some t' /\
    (d !! "status" = None -> Task.status t' = Task.status t) /\
    (d !! "description" = None -> Task.description t' = Task.description t) /\
    (forall v, d !! "status" = Some (JStr v) ->
               TaskStatus_value (Task.status t') = v) /\
    (d !! "status" = Some (JStr "PENDING") -> Task.status t' = PENDING) /\
    (d !! "description" = Some JNull -> Task.description t' = None) /\
    (forall x, d !! "description" = Some (JStr x) ->
               Task.description t' = Some x) /\
    d !! "title" = Some (JStr (Task.title t')).
Proof.
  intros Hseg Ht Hu.
  destruct (app_update_found now seg task_id d u s t Hseg Ht Hu)
    as (t' & s' & Happ & Hlk & _ & _ & Hti & Hde & Hst).
  destruct (validate_inv d u Hu) as (Htitle & Hdesc & Hstat & _).
  exists t', s'. split; [exact Happ|]. split.
  { rewrite Hlk, Z.eqb_refl. reflexivity. }
  assert (Hset : forall v, d !! "status" = Some (JStr v) ->
                           TaskStatus_value (Task.status t') = v).
  { intros v Hv. rewrite Hv in Hst, Hstat.
    rewrite bool_decide_eq_true_2 in Hst by eauto.
    rewrite Hst. now injection Hstat as ->. }
  repeat split.
  - intros Hnone. rewrite Hnone in Hst.
    rewrite bool_decide_eq_false_2 in Hst; [exact Hst | intros [? ?]; discriminate].
  - intros Hnone. rewrite Hnone in Hde.
    rewrite bool_decide_eq_false_2 in Hde; [exact Hde | intros [? ?]; discriminate].
  - exact Hset.
  - intros Hv. specialize (Hset _ Hv). now destruct (Task.status t').
  - intros Hnull. rewrite Hnull in Hde, Hdesc.
    rewrite bool_decide_eq_true_2 in Hde by eauto. rewrite Hde.
    now destruct (schemas.description u).
  - intros x Hx. rewrite Hx in Hde, Hdesc.
    rewrite bool_decide_eq_true_2 in Hde by eauto. rewrite Hde.
    destruct (schemas.description u); [now injection Hdesc as -> | discriminate].
  - now rewrite Hti.
Qed.

(** The stored task is COMPLETED with a description; the body supplies the
    default status and a null description, and both are written. *)
Lemma C9_update_is_presence_aware_witness :
  exists t' s',
    main.app 200
      (mkRequest PUT "/api/tasks/1"
         (Some (json_obj [("title", JStr "Test Task"); ("status", JStr "PENDING");
                          ("description", JNull)])))
      sample_db
      = (mkResponse 200 (main.view t'), s') /\
    lookup_row 1 (rows s') = Some t' /\
    Task.status t' = PENDING /\
    Task.description t' = None.
Proof.
  destruct (C9_update_is_presence_aware 200 "1" 1 sample_db sample_task
              (list_to_map [("title", JStr "Test Task"); ("status", JStr "PENDING");
                            ("description", JNull)])
              (schemas.mk "Test Task" None PENDING schemas.model_fields)
              eq_refl eq_refl)
    as (t' & s' & Happ & Hlk & _ & _ & _ & Hst & Hde & _).
  { vm_compute. reflexivity. }
  exists t', s'. split; [exact Happ|]. split; [exact Hlk|]. split.
  - apply Hst. vm_compute. reflexivity.
  - apply Hde. vm_compute. reflexivity.
Defined.

(** C10.  Every operation touches at most the addressed row: [get_task] and
    [get_all_tasks] return the store as they found it; [create_task] appends
    one row and every task found before is found unchanged after;
    [update_task] and [delete_task] leave the row of every other id as it
    was, and none of them but [create_task] moves the counter. *)
Theorem C10_frame s :
  (forall task_id, snd (TaskService.get_task task_id s) = s) /\
  snd (TaskService.get_all_tasks s) = s /\
  (forall now u,
     exists row,
       snd (TaskService.create_task now u s) = mkdb (rows s ++ [row]) (next_id s + 1) /\
       forall k r, lookup_row k (rows s) = Some r ->
                   lookup_row k (rows (snd (TaskService.create_task now u s))) = Some r) /\
  (forall now task_id u k,
     k <> task_id ->
     lookup_row k (rows (snd (TaskService.update_task now task_id u s)))
       = lookup_row k (rows s)) /\
  (forall now task_id u,
     next_id (snd (TaskService.update_task now task_id u s)) = next_id s /\
     map Task.id (rows (snd (TaskService.update_task now task_id u s)))
       = map Task.id (rows s)) /\
  (forall now task_id u r,
     In r (rows s) -> Task.id r <> task_id ->
     In r (rows (snd (TaskService.update_task now task_id u s)))) /\
  (forall task_id k,
     k <> task_id ->
     lookup_row k (rows (snd (TaskService.delete_task task_id s)))
       = lookup_row k (rows s)) /\
  (forall task_id r,
     In r (rows s) -> Task.id r <> task_id ->
     In r (rows (snd (TaskService.delete_task task_id s)))) /\
  (forall task_id,
     next_id (snd (TaskService.delete_task task_id s)) = next_id s).
Proof.
  repeat apply conj.
  - reflexivity.
  - reflexivity.
  - intros now u. rewrite create_task_spec. eexists. split; [reflexivity|].
    intros k r Hr. simpl. now rewrite lookup_row_app, Hr.
  - intros now task_id u k Hk.
    destruct (lookup_row task_id (rows s)) as [t|] eqn:Ht.
    + destruct (update_task_found now task_id u s t Ht)
        as (t' & s' & -> & _ & _ & Hlk & _). simpl. rewrite Hlk.
      destruct (Z.eqb_spec k task_id); [contradiction | reflexivity].
    + now rewrite (update_task_absent now task_id u s Ht).
  - intros now task_id u.
    destruct (lookup_row task_id (rows s)) as [t|] eqn:Ht.
    + destruct (update_task_found now task_id u s t Ht)
        as (t' & s' & -> & Hn & Hids & _). simpl. auto.
    + now rewrite (update_task_absent now task_id u s Ht).
  - intros now task_id u r. apply update_task_others.
  - intros task_id k Hk.
    destruct (lookup_row task_id (rows s)) as [t|] eqn:Ht.
    + rewrite (delete_task_found task_id s t Ht). simpl.
      rewrite lookup_row_delete.
      destruct (Z.eqb_spec k task_id); [contradiction | reflexivity].
    + now rewrite (delete_task_absent task_id s Ht).
  - intros task_id r Hin Hne.
    destruct (lookup_row task_id (rows s)) as [t|] eqn:Ht.
    + rewrite (delete_task_found task_id s t Ht). simpl.
      apply filter_In. split; [exact Hin|].
      destruct (Z.eqb_spec (Task.id r) task_id); [contradiction | reflexivity].
    + now rewrite (delete_task_absent task_id s Ht).
  - intros task_id.
    destruct (lookup_row task_id (rows s)) as [t|] eqn:Ht.
    + now rewrite (delete_task_found task_id s t Ht).
    + now rewrite (delete_task_absent task_id s Ht).
Qed.

(** In a table holding tasks 1 and 2, an update that rewrites task 2 and a
    delete that removes task 2 both leave task 1 as it was, and an update of
    task 1 leaves task 2 as it was. *)
Lemma C10_frame_witness :
  lookup_row 2 (rows two_task_db) = Some second_task /\
  snd (TaskService.update_task 300 2
         (schemas.mk "Renamed" (Some "d") COMPLETED schemas.model_fields) two_task_db)
    <> two_task_db /\
  lookup_row 1
    (rows (snd (TaskService.update_task 300 2
                  (schemas.mk "Renamed" (Some "d") COMPLETED schemas.model_fields)
                  two_task_db)))
  = Some sample_task /\
  snd (TaskService.delete_task 2 two_task_db) <> two_task_db /\
  lookup_row 1 (rows (snd (TaskService.delete_task 2 two_task_db)))
  = Some sample_task /\
  lookup_row 2
    (rows (snd (TaskService.update_task 300 1
                  (schemas.mk "Renamed" (Some "d") PENDING schemas.model_fields)
                  two_task_db)))
  = Some second_task.
Proof.
  pose proof (C10_frame two_task_db) as (_ & _ & _ & Hupd & _ & _ & Hdel & _).
  split; [reflexivity|]. split; [vm_compute; discriminate|]. split.
  { rewrite (Hupd 300 2 _ 1); [reflexivity | lia]. }
  split; [vm_compute; discriminate|]. split.
  { rewrite (Hdel 2 1); [reflexivity | lia]. }
  rewrite (Hupd 300 1 _ 2); [reflexivity | lia].
Defined.


(** * Further properties of the service and its routes *)


(** X1.  Only POST, PUT and DELETE requests can change the store: a request
    with any other method, whatever its path and body, leaves the store
    exactly as it was. *)
Theorem X1_other_methods_never_write now req s :
  method req <> POST -> method req <> PUT -> method req <> DELETE ->
  snd (main.app now req s) = s.
Proof.
  intros Hpost Hput Hdel.
  destruct (app_step now req s) as [H|[[Hm _]|[[Hm _]|[Hm _]]]];
    [exact H | contradiction..].
Qed.

Lemma X1_other_methods_never_write_witness :
  snd (main.app 200
         (mkRequest GET "/api/tasks/1" (Some (json_obj [("title", JStr "x")])))
         sample_db)
  = sample_db.
Proof.
  apply (X1_other_methods_never_write 200
           (mkRequest GET "/api/tasks/1" (Some (json_obj [("title", JStr "x")])))
           sample_db); discriminate.
Defined.

(** With unique keys, a row of the table is the one its key looks up. *)
Lemma lookup_row_member (rs : list Task.t) (r : Task.t) :
  NoDup (map Task.id rs) -> In r rs -> lookup_row (Task.id r) rs = Some r.
Proof.
  unfold lookup_row. induction rs as [|a rs IH]; simpl; intros Hnd Hin; [contradiction|].
  inversion Hnd as [|x xs Hnotin Hnd']; subst.
  destruct Hin as [->|Hin]; [now rewrite Z.eqb_refl|].
  destruct (Z.eqb_spec (Task.id a) (Task.id r)) as [E|E]; [|now apply IH].
  exfalso. apply Hnotin. rewrite E. apply list_elem_of_In, in_map. exact Hin.
Qed.

(** X2.  In every state reached by serving requests from the empty store,
    task ids are unique: no two rows share an id, each row is the one found
    under its id, and the views listed by GET [/api/tasks/] have pairwise
    distinct ids. *)
Theorem X2_ids_unique_in_reachable_states s :
  reachable s ->
  NoDup (map Task.id (rows s)) /\
  (forall r, In r (rows s) -> lookup_row (Task.id r) (rows s) = Some r) /\
  (forall now req_body,
     NoDup (map schemas.r_id
              (views_of (body_of (fst (main.app now
                 (mkRequest GET "/api/tasks/" req_body) s)))))).
Proof.
  intros Hr. destruct (reachable_wf s Hr) as [Hnd _].
  split; [exact Hnd|]. split.
  - intros r Hin. now apply lookup_row_member.
  - intros now req_body. rewrite app_get_tasks. simpl.
    rewrite List.map_map. exact Hnd.
Qed.

(** After two creates the table holds tasks 1 and 2, and no two rows share
    an id. *)
Lemma X2_ids_unique_in_reachable_states_witness :
  map Task.id
    (rows (snd (main.app 101 (post (Some (json_obj [("title", JStr "b")])))
             (snd (main.app 100 (post (Some (json_obj [("title", JStr "a")])))
                     empty_db)))))
  = [1; 2] /\
  NoDup (map Task.id
    (rows (snd (main.app 101 (post (Some (json_obj [("title", JStr "b")])))
             (snd (main.app 100 (post (Some (json_obj [("title", JStr "a")])))
                     empty_db)))))).
Proof.
  split; [vm_compute; reflexivity|].
  exact (proj1 (X2_ids_unique_in_reachable_states _
                  (reachable_step 101 (post (Some (json_obj [("title", JStr "b")]))) _
                     (reachable_step 100 (post (Some (json_obj [("title", JStr "a")])))
                        empty_db reachable_empty)))).
Defined.

(** X3.  No request changes the id or the creation time of a task: a task
    found under a key before a request and still found under it afterwards
    has the same [id] and [created_at]. *)
Theorem X3_id_and_created_at_never_change now req s k r r' :
  lookup_row k (rows s) = Some r ->
  lookup_row k (rows (snd (main.app now req s))) = Some r' ->
  Task.id r' = Task.id r /\ Task.created_at r' = Task.created_at r.
Proof.
  intros Hr Hr'.
  destruct (app_step now req s)
    as [H|[[_ (u & _ & H)]|[[_ (task_id & u & _ & H)]|[_ (task_id & H)]]]];
    rewrite H in Hr'; clear H.
  - rewrite Hr in Hr'. now injection Hr' as <-.
  - rewrite create_task_spec in Hr'. simpl in Hr'.
    rewrite lookup_row_app, Hr in Hr'. now injection Hr' as <-.
  - destruct (lookup_row task_id (rows s)) as [t|] eqn:Ht.
    + destruct (update_task_found now task_id u s t Ht)
        as (t' & s' & Hupd & _ & _ & Hlk & Hid & Hc & _).
      rewrite Hupd in Hr'. simpl in Hr'. rewrite Hlk in Hr'.
      destruct (Z.eqb_spec k task_id) as [->|Hne].
      * injection Hr' as <-. rewrite Hr in Ht. injection Ht as <-.
        destruct (lookup_row_Some _ _ _ Hr) as [_ Hidr]. split; congruence.
      * rewrite Hr in Hr'. now injection Hr' as <-.
    + rewrite (update_task_absent now task_id u s Ht) in Hr'. simpl in Hr'.
      rewrite Hr in Hr'. now injection Hr' as <-.
  - destruct (lookup_row task_id (rows s)) as [t|] eqn:Ht.
    + rewrite (delete_task_found task_id s t Ht) in Hr'. simpl in Hr'.
      rewrite lookup_row_delete in Hr'.
      destruct (Z.eqb_spec k task_id); [discriminate|].
      rewrite Hr in Hr'. now injection Hr' as <-.
    + rewrite (delete_task_absent task_id s Ht) in Hr'. simpl in Hr'.
      rewrite Hr in Hr'. now injection Hr' as <-.
Qed.

Lemma X3_id_and_created_at_never_change_witness :
  Task.id (Task.mk 1 "Renamed" (Some "Test Description") COMPLETED 100 (Some 200)) = 1 /\
  Task.created_at
    (Task.mk 1 "Renamed" (Some "Test Description") COMPLETED 100 (Some 200)) = 100.
Proof.
  apply (X3_id_and_created_at_never_change 200
           (mkRequest PUT "/api/tasks/1" (Some (json_obj [("title", JStr "Renamed")])))
           sample_db 1 sample_task).
  - reflexivity.
  - vm_compute. reflexivity.
Defined.

(** X4.  Read-your-writes on update: after a PUT answered 200, a GET on the
    same id returns the view the PUT returned and leaves the store alone. *)
Theorem X4_update_then_get now now' seg task_id s t d u :
  int_validator seg = Some task_id ->
  lookup_row task_id (rows s) = Some t ->
  schemas.validate (Some (JObj d)) = Some u ->
  exists v s',
    main.app now (mkRequest PUT (item_path seg) (Some (JObj d))) s
      = (mkResponse 200 (Model v), s') /\
    main.app now' (mkRequest GET (item_path seg) None) s'
      = (mkResponse 200 (Model v), s').
Proof.
  intros Hseg Ht Hu.
  destruct (app_update_found now seg task_id d u s t Hseg Ht Hu)
    as (t' & s' & Happ & Hlk & _).
  exists (schemas.from_attributes t'), s'. split; [exact Happ|].
  rewrite (app_get_task now' seg task_id None s' Hseg), Hlk, Z.eqb_refl.
  reflexivity.
Qed.

Lemma X4_update_then_get_witness :
  exists v s',
    main.app 200
      (mkRequest PUT "/api/tasks/1" (Some (json_obj [("title", JStr "Renamed")])))
      sample_db
      = (mkResponse 200 (Model v), s') /\
    main.app 300 (mkRequest GET "/api/tasks/1" None) s'
      = (mkResponse 200 (Model v), s').
Proof.
  eapply (X4_update_then_get 200 300 "1" 1 sample_db sample_task
            (list_to_map [("title", JStr "Renamed")])).
  - reflexivity.
  - reflexivity.
  - vm_compute. reflexivity.
Defined.

(** ** Composing operations *)

Section composition.
Implicit Types (s : database) (t : Task.t) (u : schemas.TaskBase).

(** The assignment loop run on its own result changes nothing more. *)
Lemma setattr_loop_twice t u :
  fold_left setattr (schemas.dict true u)
    (fold_left setattr (schemas.dict true u) t)
  = fold_left setattr (schemas.dict true u) t.
Proof.
  unfold schemas.dict. simpl.
  destruct (bool_decide ("title" ∈ schemas.fields_set u));
    destruct (bool_decide ("description" ∈ schemas.fields_set u));
    destruct (bool_decide ("status" ∈ schemas.fields_set u));
    destruct t; reflexivity.
Qed.

Lemma setattr_loop_stamped t u now :
  let t' := fold_left setattr (schemas.dict true u) t in
  fold_left setattr (schemas.dict true u)
    (Task.mk (Task.id t') (Task.title t') (Task.description t') (Task.status t')
             (Task.created_at t') (Some now))
  = Task.mk (Task.id t') (Task.title t') (Task.description t') (Task.status t')
            (Task.created_at t') (Some now).
Proof.
  unfold schemas.dict. simpl.
  destruct (bool_decide ("title" ∈ schemas.fields_set u));
    destruct (bool_decide ("description" ∈ schemas.fields_set u));
    destruct (bool_decide ("status" ∈ schemas.fields_set u));
    destruct t; reflexivity.
Qed.

(** Repeating an update with the same input returns the same row and does
    not write. *)
Lemma update_task_twice now now' task_id u s t :
  lookup_row task_id (rows s) = Some t ->
  exists t' s',
    TaskService.update_task now task_id u s = (Some t', s') /\
    TaskService.update_task now' task_id u s' = (Some t', s').
Proof.
  intros H. destruct (lookup_row_Some _ _ _ H) as [_ Hid].
  destruct (setattr_loop t u) as (Li & _).
  unfold TaskService.update_task at 1. unfold bind, query_first. rewrite H.
  unfold commit_refresh, ret.
  destruct (decide (t = fold_left setattr (schemas.dict true u) t)) as [E|E].
  - eexists _, s. split; [reflexivity|].
    unfold TaskService.update_task, bind, query_first. rewrite H.
    unfold commit_refresh, ret. rewrite decide_True by exact E. reflexivity.
  - eexists _, _. split; [reflexivity|].
    unfold TaskService.update_task, bind, query_first. simpl.
    rewrite (lookup_row_write task_id (Task.id t)) by exact Li.
    rewrite Hid, Z.eqb_refl, H.
    unfold commit_refresh, ret.
    pose proof (setattr_loop_stamped t u now) as Hs. cbv zeta in Hs.
    rewrite decide_True by (symmetry; exact Hs). rewrite Hs. reflexivity.
Qed.

Lemma filter_keeps_all (p : Task.t -> bool) (rs : list Task.t) :
  (forall r, In r rs -> p r = true) -> List.filter p rs = rs.
Proof.
  induction rs as [|a rs IH]; simpl; intros H; [reflexivity|].
  rewrite (H a) by now left. f_equal. apply IH. intros r Hin. apply H. now right.
Qed.

End composition.

(** X5.  Update is idempotent: sending the same valid PUT a second time, at
    any later time, returns the same view as the first and leaves the store
    as the first PUT left it. *)
Theorem X5_update_idempotent now now' seg task_id s t req_body u :
  int_validator seg = Some task_id ->
  lookup_row task_id (rows s) = Some t ->
  schemas.validate req_body = Some u ->
  exists v s',
    main.app now (mkRequest PUT (item_path seg) req_body) s
      = (mkResponse 200 (Model v), s') /\
    main.app now' (mkRequest PUT (item_path seg) req_body) s'
      = (mkResponse 200 (Model v), s').
Proof.
  intros Hseg Ht Hu.
  destruct (update_task_twice now now' task_id u s t Ht) as (t' & s' & H1 & H2).
  exists (schemas.from_attributes t'), s'.
  rewrite (app_update_task now seg task_id req_body s Hseg), Hu, H1.
  rewrite (app_update_task now' seg task_id req_body s' Hseg), Hu, H2.
  split; reflexivity.
Qed.

Lemma X5_update_idempotent_witness :
  exists v s',
    main.app 200
      (mkRequest PUT "/api/tasks/1"
         (Some (json_obj [("title", JStr "Renamed"); ("status", JStr "PENDING")])))
      sample_db
      = (mkResponse 200 (Model v), s') /\
    main.app 300
      (mkRequest PUT "/api/tasks/1"
         (Some (json_obj [("title", JStr "Renamed"); ("status", JStr "PENDING")])))
      s'
      = (mkResponse 200 (Model v), s').
Proof.
  eapply (X5_update_idempotent 200 300 "1" 1 sample_db sample_task).
  - reflexivity.
  - reflexivity.
  - vm_compute. reflexivity.
Defined.

(** X6.  Creating a task and then deleting it by the id that creation
    returned gives the table back as it was before; only the id counter has
    moved on.  (Stated for stores with unique keys below the counter, as all
    reachable ones are.) *)
Theorem X6_create_then_delete now now' s req_body u seg :
  db_wf s ->
  schemas.validate req_body = Some u ->
  exists v s1,
    main.app now (post req_body) s = (mkResponse 200 (Model v), s1) /\
    (int_validator seg = Some (schemas.r_id v) ->
     main.app now' (mkRequest DELETE (item_path seg) None) s1
       = (mkResponse 200 (Object [("message", "Task deleted successfully")]),
          mkdb (rows s) (next_id s + 1))).
Proof.
  intros [_ Hlt] Hu. unfold post. rewrite app_create_task, Hu, create_task_spec.
  eexists _, _. split; [reflexivity|]. simpl. intros Hseg.
  rewrite (app_delete_task now' seg _ None _ Hseg).
  assert (Hfresh : lookup_row (next_id s) (rows s) = None).
  { apply lookup_row_None. intros r Hin.
    rewrite List.Forall_forall in Hlt. specialize (Hlt r Hin). lia. }
  erewrite delete_task_found;
    [|simpl; rewrite lookup_row_app, Hfresh; simpl; rewrite Z.eqb_refl; reflexivity].
  simpl. rewrite List.filter_app. simpl. rewrite Z.eqb_refl. simpl.
  rewrite app_nil_r, filter_keeps_all; [reflexivity|].
  intros r Hin. rewrite List.Forall_forall in Hlt. specialize (Hlt r Hin).
  destruct (Z.eqb_spec (Task.id r) (next_id s)); [lia | reflexivity].
Qed.

Lemma X6_create_then_delete_witness :
  exists v s1,
    main.app 200 (post (Some (json_obj [("title", JStr "b")]))) sample_db
      = (mkResponse 200 (Model v), s1) /\
    main.app 300 (mkRequest DELETE "/api/tasks/2" None) s1
      = (mkResponse 200 (Object [("message", "Task deleted successfully")]),
         mkdb (rows sample_db) (next_id sample_db + 1)).
Proof.
  assert (Hwf : db_wf sample_db).
  { split.
    - apply NoDup_singleton.
    - repeat constructor. }
  destruct (X6_create_then_delete 200 300 sample_db
              (Some (json_obj [("title", JStr "b")]))
              (schemas.mk "b" None PENDING {[ "title" ]}) "2" Hwf)
    as (v & s1 & Hpost & Hdel).
  { vm_compute. reflexivity. }
  exists v, s1. split; [exact Hpost|]. apply Hdel.
  revert Hpost. vm_compute. intros [= <- _]. reflexivity.
Defined.

(** X7.  Deleting twice: once a DELETE has been answered 200, a second
    DELETE on the same id is answered 404 "Task not found" and changes
    nothing. *)
Theorem X7_delete_twice now now' seg task_id s row :
  int_validator seg = Some task_id ->
  lookup_row task_id (rows s) = Some row ->
  exists s',
    main.app now (mkRequest DELETE (item_path seg) None) s
      = (mkResponse 200 (Object [("message", "Task deleted successfully")]), s') /\
    main.app now' (mkRequest DELETE (item_path seg) None) s' = (not_found, s').
Proof.
  intros Hseg Hrow. eexists. split.
  - rewrite (app_delete_task now seg task_id None s Hseg),
      (delete_task_found task_id s row Hrow). reflexivity.
  - rewrite (app_delete_task now' seg task_id None _ Hseg).
    rewrite delete_task_absent; [reflexivity|]. simpl.
    rewrite lookup_row_delete, Z.eqb_refl. reflexivity.
Qed.

Lemma X7_delete_twice_witness :
  exists s',
    main.app 200 (mkRequest DELETE "/api/tasks/1" None) sample_db
      = (mkResponse 200 (Object [("message", "Task deleted successfully")]), s') /\
    main.app 300 (mkRequest DELETE "/api/tasks/1" None) s' = (not_found, s').
Proof.
  apply (X7_delete_twice 200 300 "1" 1 sample_db sample_task); reflexivity.
Defined.

(** ** Request bodies *)

Section bodies.
Implicit Types (d : gmap string json) (k : string) (j : json).

Lemma validate_insert_unknown k j d :
  k <> "title" -> k <> "description" -> k <> "status" ->
  schemas.validate (Some (JObj (<[k:=j]> d))) = schemas.validate (Some (JObj d)).
Proof.
  intros Ht Hd Hs.
  unfold schemas.validate, schemas.validate_title, schemas.validate_description,
    schemas.validate_status.
  rewrite !lookup_insert_ne by assumption.
  replace (dom (<[k:=j]> d) ∩ schemas.model_fields)
    with (dom d ∩ schemas.model_fields); [reflexivity|].
  rewrite dom_insert_L. apply set_eq. intros x.
  rewrite !elem_of_intersection, elem_of_union, elem_of_singleton.
  split; [tauto|]. intros [[->|H] Hm]; [|tauto]. exfalso.
  unfold schemas.model_fields in Hm.
  rewrite !elem_of_union, !elem_of_singleton in Hm.
  destruct Hm as [[?|?]|?]; congruence.
Qed.

End bodies.

(** X8.  Members of a request body other than [title], [description] and
    [status] are ignored: adding one -- [id], [created_at] or any other name --
    changes neither the response nor the store, for any method and path.  In
    particular a client cannot choose a task's id or timestamps. *)
Theorem X8_unknown_members_ignored now m p k j d s :
  k <> "title" -> k <> "description" -> k <> "status" ->
  main.app now (mkRequest m p (Some (JObj (<[k:=j]> d)))) s
  = main.app now (mkRequest m p (Some (JObj d))) s.
Proof.
  intros Ht Hd Hs.
  assert (Hv : schemas.validate (Some (JObj (<[k:=j]> d)))
               = schemas.validate (Some (JObj d))).
  { now apply validate_insert_unknown. }
  unfold main.app. cbn [method path body].
  destruct (main.full_match main.routes m p) as [[e params]|]; [|reflexivity].
  destruct e; unfold main.call; try reflexivity; now rewrite Hv.
Qed.

Lemma X8_unknown_members_ignored_witness :
  main.app 100
    (post (Some (JObj (<["id" := JNum 99]> (list_to_map [("title", JStr "a")])))))
    empty_db
  = main.app 100 (post (Some (JObj (list_to_map [("title", JStr "a")])))) empty_db.
Proof.
  apply (X8_unknown_members_ignored 100 POST "/api/tasks/" "id" (JNum 99));
    discriminate.
Defined.

(** X9.  The status enumeration and its wire literals correspond one to one:
    a string is accepted as a status exactly when it is the value of a member,
    and it is read back as that member. *)
Theorem X9_status_value_round_trip v st :
  TaskStatus_of_value v = Some st <-> v = TaskStatus_value st.
Proof.
  split.
  - apply TaskStatus_of_value_inv.
  - intros ->. apply TaskStatus_of_value_value.
Qed.

Lemma X9_status_value_round_trip_witness :
  TaskStatus_of_value "IN_PROGRESS" = Some IN_PROGRESS.
Proof.
  apply (proj2 (X9_status_value_round_trip "IN_PROGRESS" IN_PROGRESS)).
  reflexivity.
Defined.

(** X10.  What validation accepts.  A body passes validation against the task
    schema exactly when it is an object whose [title] is a string, whose
    [description] is absent, null or a string, and whose [status] is absent or
    one of the three status literals; anything that is not an object fails. *)
Theorem X10_validation_accepts req_body :
  is_Some (schemas.validate req_body) <->
  exists d,
    req_body = Some (JObj d) /\
    (exists t, d !! "title" = Some (JStr t)) /\
    (d !! "description" = None \/ d !! "description" = Some JNull \/
     exists x, d !! "description" = Some (JStr x)) /\
    (d !! "status" = None \/
     exists st, d !! "status" = Some (JStr (TaskStatus_value st))).
Proof.
  split.
  - intros [u Hu]. destruct req_body as [[| | | | |d]|]; try discriminate Hu.
    exists d. split; [reflexivity|].
    destruct (validate_inv d u Hu) as (Ht & Hde & Hst & _).
    split; [eauto|]. split.
    + destruct (d !! "description") as [j|]; [|auto]. subst j.
      destruct (schemas.description u); simpl; eauto.
    + destruct (d !! "status") as [j|]; [|auto]. subst j. eauto.
  - intros (d & -> & [t Ht] & Hde & Hst).
    unfold schemas.validate, schemas.validate_title,
      schemas.validate_description, schemas.validate_status.
    rewrite Ht. simpl.
    destruct Hde as [->|[->|[x ->]]]; simpl;
      (destruct Hst as [->|[st ->]]; simpl;
       [|rewrite TaskStatus_of_value_value; simpl]; eauto).
Qed.

Lemma X10_validation_accepts_witness :
  is_Some (schemas.validate
             (Some (JObj (list_to_map [("title", JStr "a"); ("description", JNull);
                                       ("status", JStr "COMPLETED")])))).
Proof.
  apply (proj2 (X10_validation_accepts _)).
  eexists. split; [reflexivity|]. split; [|split].
  - exists "a". vm_compute. reflexivity.
  - right. left. vm_compute. reflexivity.
  - right. exists COMPLETED. vm_compute. reflexivity.
Defined.

(** X11.  The liveness and root endpoints do not depend on the store or on
    the request body: GET [/health] always answers 200 with [{"status": "UP"}]
    and GET [/] always answers 200 with the informational payload, and neither
    touches the store. *)
Theorem X11_health_and_root now req_body s :
  main.app now (mkRequest GET "/health" req_body) s
    = (mkResponse 200 (Object [("status", "UP")]), s) /\
  main.app now (mkRequest GET "/" req_body) s
    = (mkResponse 200 (Object [("message", "Task Management API"); ("docs", "/docs")]),
       s).
Proof. split; reflexivity. Qed.

(** X12.  Timestamps.  A created task carries the creation time in
    [created_at] and no [updated_at].  An update keeps [created_at]; when it
    changes [title], [description] or [status] it stamps [updated_at] with the
    time of the update, and when it changes none of them the row and the store
    stay exactly as they were. *)
Theorem X12_timestamps now task_id u s t :
  lookup_row task_id (rows s) = Some t ->
  (forall u0,
     Task.created_at (fst (TaskService.create_task now u0 s)) = now /\
     Task.updated_at (fst (TaskService.create_task now u0 s)) = None) /\
  exists t' s',
    TaskService.update_task now task_id u s = (Some t', s') /\
    Task.created_at t' = Task.created_at t /\
    ((Task.title t', Task.description t', Task.status t')
       = (Task.title t, Task.description t, Task.status t) ->
     t' = t /\ s' = s) /\
    ((Task.title t', Task.description t', Task.status t')
       <> (Task.title t, Task.description t, Task.status t) ->
     Task.updated_at t' = Some now).
Proof.
  intros H. split; [intros u0; split; reflexivity|].
  destruct (setattr_loop t u) as (Li & Lc & Lu & _).
  unfold TaskService.update_task, bind, query_first. rewrite H.
  unfold commit_refresh, ret.
  destruct (decide (t = fold_left setattr (schemas.dict true u) t)) as [E|E].
  - eexists _, s. split; [reflexivity|]. rewrite <- E.
    split; [reflexivity|]. split; [auto|]. intros Hne. now destruct Hne.
  - eexists _, _. split; [reflexivity|]. simpl. split; [exact Lc|]. split.
    + intros [= Hti Hde Hst]. exfalso. apply E.
      destruct (fold_left setattr (schemas.dict true u) t), t. simpl in *.
      congruence.
    + reflexivity.
Qed.

Lemma X12_timestamps_witness :
  exists t' s',
    TaskService.update_task 200 1
      (schemas.mk "Renamed" None PENDING {[ "title" ]}) sample_db = (Some t', s') /\
    Task.created_at t' = 100 /\
    Task.updated_at t' = Some 200.
Proof.
  destruct (proj2 (X12_timestamps 200 1
                     (schemas.mk "Renamed" None PENDING {[ "title" ]})
                     sample_db sample_task eq_refl))
    as (t' & s' & Hupd & Hc & _ & Hstamp).
  exists t', s'. split; [exact Hupd|]. split; [exact Hc|].
  apply Hstamp. revert Hupd. vm_compute. intros [= <- _]. discriminate.
Defined.

(** X13.  List completeness.  After a run of create requests with valid
    bodies, each answered 200 with the view of its new task, the table holds
    the earlier rows followed by the new ones in the order of the requests,
    each with the fields of its input and its own creation time, and GET
    [/api/tasks/] lists exactly those. *)
Theorem X13_list_after_creates (reqs : list (Z * option json)) s :
  Forall (fun p => is_Some (schemas.validate (snd p))) reqs ->
  exists created : list Task.t,
    serve (map (fun p => (fst p, post (snd p))) reqs) s
      = (map (fun r => mkResponse 200 (main.view r)) created,
         mkdb (rows s ++ created) (next_id s + Z.of_nat (length created))) /\
    Forall2 (fun p r =>
               exists u, schemas.validate (snd p) = Some u /\
                 Task.title r = schemas.title u /\
                 Task.description r = schemas.description u /\
                 Task.status r = schemas.status u /\
                 Task.created_at r = fst p) reqs created /\
    forall now req_body,
      main.app now (mkRequest GET "/api/tasks/" req_body)
        (mkdb (rows s ++ created) (next_id s + Z.of_nat (length created)))
      = (mkResponse 200 (main.views (rows s ++ created)),
         mkdb (rows s ++ created) (next_id s + Z.of_nat (length created))).
Proof.
  intros Hall. revert s.
  induction Hall as [|[now b] reqs [u Hu] _ IH]; intros s.
  - exists []. simpl. rewrite app_nil_r, Z.add_0_r. destruct s.
    split; [reflexivity|]. split; [constructor|]. intros. apply app_get_tasks.
  - simpl in Hu. simpl. unfold post at 1. rewrite app_create_task, Hu.
    rewrite create_task_spec. cbv zeta.
    set (row := Task.mk (next_id s) (schemas.title u) (schemas.description u)
                        (schemas.status u) now None).
    destruct (IH (mkdb (rows s ++ [row]) (next_id s + 1)))
      as (created & Hserve & Hrel & _).
    rewrite Hserve. exists (row :: created). simpl.
    replace ((rows s ++ [row]) ++ created)%list with (rows s ++ row :: created)%list
      by (now rewrite <- List.app_assoc).
    replace (next_id s + 1 + Z.of_nat (length created))
      with (next_id s + Z.pos (Pos.of_succ_nat (length created))) by lia.
    split; [reflexivity|]. split.
    + constructor; [|exact Hrel]. exists u. simpl. auto.
    + intros. apply app_get_tasks.
Qed.

Lemma X13_list_after_creates_witness :
  exists created : list Task.t,
    serve [(100, post (Some (json_obj [("title", JStr "a")])));
           (101, post (Some (json_obj [("title", JStr "b")])))] empty_db
      = (map (fun r => mkResponse 200 (main.view r)) created,
         mkdb (rows empty_db ++ created) (next_id empty_db + Z.of_nat (length created))) /\
    length created = 2%nat.
Proof.
  destruct (X13_list_after_creates
              [(100, Some (json_obj [("title", JStr "a")]));
               (101, Some (json_obj [("title", JStr "b")]))] empty_db)
    as (created & Hserve & Hrel & _).
  { repeat constructor; vm_compute; eauto. }
  exists created. split; [exact Hserve|].
  apply Forall2_length in Hrel. now rewrite <- Hrel.
Defined.

(** X14.  The view returned by a GET or a PUT on an id carries that id. *)
Theorem X14_returned_view_has_requested_id now m seg task_id req_body s v s' :
  m = GET \/ m = PUT ->
  int_validator seg = Some task_id ->
  main.app now (mkRequest m (item_path seg) req_body) s
    = (mkResponse 200 (Model v), s') ->
  schemas.r_id v = task_id.
Proof.
  intros [-> | ->] Hseg.
  - rewrite (app_get_task now seg task_id req_body s Hseg).
    destruct (lookup_row task_id (rows s)) as [row|] eqn:Hrow; [|discriminate].
    intros [= <- _]. simpl. now destruct (lookup_row_Some _ _ _ Hrow).
  - rewrite (app_update_task now seg task_id req_body s Hseg).
    destruct (schemas.validate req_body) as [u|]; [|discriminate].
    destruct (lookup_row task_id (rows s)) as [t|] eqn:Ht.
    + destruct (update_task_found now task_id u s t Ht)
        as (t' & s1 & -> & _ & _ & _ & Hid & _).
      intros [= <- _]. exact Hid.
    + rewrite (update_task_absent now task_id u s Ht). discriminate.
Qed.

Lemma X14_returned_view_has_requested_id_witness :
  schemas.r_id (schemas.from_attributes sample_task) = 1.
Proof.
  apply (X14_returned_view_has_requested_id 200 GET "1" 1 None sample_db
           (schemas.from_attributes sample_task) sample_db).
  - left. reflexivity.
  - reflexivity.
  - vm_compute. reflexivity.
Defined.

(** X15.  A created task gets an id that no task in the store has, and the
    store keeps unique keys below the counter afterwards.  (Stated for stores
    with unique keys below the counter, as all reachable ones are.) *)
Theorem X15_create_assigns_fresh_id now u s :
  db_wf s ->
  (forall r, In r (rows s) ->
     Task.id r <> Task.id (fst (TaskService.create_task now u s))) /\
  lookup_row (Task.id (fst (TaskService.create_task now u s))) (rows s) = None /\
  db_wf (snd (TaskService.create_task now u s)).
Proof.
  intros Hwf. pose proof (create_task_wf now u s Hwf) as Hwf'.
  destruct Hwf as [_ Hlt]. rewrite create_task_spec in *. simpl.
  assert (Hfresh : forall r, In r (rows s) -> Task.id r <> next_id s).
  { intros r Hin. rewrite List.Forall_forall in Hlt. specialize (Hlt r Hin). lia. }
  split; [exact Hfresh|]. split; [|exact Hwf'].
  now apply lookup_row_None.
Qed.

Lemma X15_create_assigns_fresh_id_witness :
  lookup_row
    (Task.id (fst (TaskService.create_task 200
                     (schemas.mk "b" None PENDING {[ "title" ]}) sample_db)))
    (rows sample_db) = None.
Proof.
  assert (Hwf : db_wf sample_db).
  { split.
    - apply NoDup_singleton.
    - repeat constructor. }
  exact (proj1 (proj2 (X15_create_assigns_fresh_id 200
                         (schemas.mk "b" None PENDING {[ "title" ]})
                         sample_db Hwf))).
Defined.

(** X16.  A request whose body fails validation never changes the store,
    unless it is a DELETE, which does not read the body. *)
Theorem X16_invalid_body_never_writes now req s :
  schemas.validate (body req) = None ->
  method req <> DELETE ->
  snd (main.app now req s) = s.
Proof.
  intros Hv Hdel.
  destruct (app_step now req s)
    as [H|[[_ (u & Hu & _)]|[[_ (task_id & u & Hu & _)]|[Hm _]]]].
  - exact H.
  - rewrite Hv in Hu. discriminate.
  - rewrite Hv in Hu. discriminate.
  - contradiction.
Qed.

Lemma X16_invalid_body_never_writes_witness :
  snd (main.app 200
         (mkRequest PUT "/api/tasks/1" (Some (json_obj [("title", JNum 5)])))
         sample_db)
  = sample_db.
Proof.
  apply (X16_invalid_body_never_writes 200
           (mkRequest PUT "/api/tasks/1" (Some (json_obj [("title", JNum 5)])))
           sample_db).
  - vm_compute. reflexivity.
  - discriminate.
Defined.
